(** * Xilinx axi/xps timebase watchdog and Versal window watchdog

    A shallow embedding of [drivers/watchdog/of_xilinx_wdt.c]: the register
    transactions of the plain and of the window variant, the window gate,
    the timeout arithmetic, the self-test loop and the suspend hook.

    Integers of the C code are [Z] with the wrap-around of their width
    written out. The memory-mapped register block and the clock framework
    are an abstract [Platform]; every driver operation is a computation
    that threads the driver's data and the platform state and reports, in
    order, what it did to the outside (register reads and writes, clock
    calls, lock operations, diagnostics). *)

From Stdlib Require Import ZArith List Bool Lia String.
From Equations Require Import Equations.
Import ListNotations.

Local Open Scope Z_scope.

(** ** Machine integers *)

Definition wrap32 (x : Z) : Z := x mod 2 ^ 32.
Definition wrap64 (x : Z) : Z := x mod 2 ^ 64.

Definition U32_MAX : Z := 4294967295.

(** [BIT(n)] of linux/bits.h. *)
Definition BIT (n : Z) : Z := Z.shiftl 1 n.

(** [~(u32)x]. *)
Definition not32 (x : Z) : Z := wrap32 (Z.lnot (wrap32 x)).

(** A C truth value. *)
Definition truthy (x : Z) : bool := negb (x =? 0).

Definition EINVAL : Z := 22.

(** ** Constants of the driver *)

Definition XWT_WWDT_DEFAULT_TIMEOUT : Z := 10.
Definition XWT_WWDT_MIN_TIMEOUT : Z := 1.

Definition XWT_TWCSR0_OFFSET : Z := 0x0.
Definition XWT_TWCSR1_OFFSET : Z := 0x4.
Definition XWT_TBR_OFFSET : Z := 0x8.

Definition XWT_CSR0_WRS_MASK : Z := BIT 3.
Definition XWT_CSR0_WDS_MASK : Z := BIT 2.
Definition XWT_CSR0_EWDT1_MASK : Z := BIT 1.
Definition XWT_CSRX_EWDT2_MASK : Z := BIT 0.

Definition XWT_MAX_SELFTEST_LOOP_COUNT : Z := 0x00010000.
Definition XWT_TIMER_FAILED : Z := 0xFFFFFFFF.

Definition XWT_WWDT_MWR_OFFSET : Z := 0x00.
Definition XWT_WWDT_ESR_OFFSET : Z := 0x04.
Definition XWT_WWDT_FCR_OFFSET : Z := 0x08.
Definition XWT_WWDT_FWR_OFFSET : Z := 0x0c.
Definition XWT_WWDT_SWR_OFFSET : Z := 0x10.

Definition XWT_WWDT_MWR_MASK : Z := BIT 0.

Definition XWT_WWDT_ESR_WINT_MASK : Z := BIT 16.
Definition XWT_WWDT_ESR_WSW_MASK : Z := BIT 8.
Definition XWT_WWDT_ESR_WEN_MASK : Z := BIT 0.

Definition XWT_WWDT_SBC_MASK : Z := 0xFF00.
Definition XWT_WWDT_SBC_SHIFT : Z := 16.
Definition XWT_WWDT_BSS_MASK : Z := 0xC0.

(** ** Data *)

(** [enum xwdt_ip_type]. *)
Inductive xwdt_ip_type : Type :=
| XWDT_WDT
| XWDT_WWDT.

(** The two [struct watchdog_ops] tables of the driver; the [ops] pointer
    of a watchdog device is one of them. *)
Inductive watchdog_ops : Type :=
| xilinx_wdt_ops
| xilinx_wwdt_ops.

(** The fields of [struct watchdog_device] the driver reads or writes. *)
Record watchdog_device : Type := mk_wdd {
  ops : watchdog_ops;
  timeout : Z;
  pretimeout : Z;
  min_timeout : Z;
  max_timeout : Z;
  status : Z
}.

(** [struct xwdt_device]; [base], [spinlock] and [clk] are handles on the
    platform and live there. *)
Record xwdt_device : Type := mk_xdev {
  wdt_interval : Z;
  xilinx_wdt_wdd : watchdog_device;
  irq : Z
}.

Definition with_wdd (xdev : xwdt_device) (wdd : watchdog_device) : xwdt_device :=
  {| wdt_interval := wdt_interval xdev;
     xilinx_wdt_wdd := wdd;
     irq := irq xdev |}.

Definition with_timeout (wdd : watchdog_device) (t : Z) : watchdog_device :=
  {| ops := ops wdd; timeout := t; pretimeout := pretimeout wdd;
     min_timeout := min_timeout wdd; max_timeout := max_timeout wdd;
     status := status wdd |}.

Definition with_pretimeout (wdd : watchdog_device) (p : Z) : watchdog_device :=
  {| ops := ops wdd; timeout := timeout wdd; pretimeout := p;
     min_timeout := min_timeout wdd; max_timeout := max_timeout wdd;
     status := status wdd |}.

Definition with_min_timeout (wdd : watchdog_device) (t : Z) : watchdog_device :=
  {| ops := ops wdd; timeout := timeout wdd; pretimeout := pretimeout wdd;
     min_timeout := t; max_timeout := max_timeout wdd;
     status := status wdd |}.

Definition with_max_timeout (wdd : watchdog_device) (t : Z) : watchdog_device :=
  {| ops := ops wdd; timeout := timeout wdd; pretimeout := pretimeout wdd;
     min_timeout := min_timeout wdd; max_timeout := t;
     status := status wdd |}.

(** Modelled from the spec: the framework's "currently active" flag.
    [watchdog_active] and [WDOG_ACTIVE] belong to linux/watchdog.h, which is
    not part of the driver's file: the flag is bit [WDOG_ACTIVE] of the
    status word, set by the framework once a start succeeded. *)
Definition WDOG_ACTIVE : Z := 0.

Definition watchdog_active (wdd : watchdog_device) : bool :=
  Z.testbit (status wdd) WDOG_ACTIVE.

(** ** What an operation does to the outside *)

Inductive loglevel : Type := LogErr | LogWarn | LogInfo | LogDbg.

Inductive event : Type :=
| EvRead (off val : Z)          (* ioread32(base + off) returned val *)
| EvWrite (val off : Z)         (* iowrite32(val, base + off) *)
| EvClkEnable (ret : Z)         (* clk_enable(clk) returned ret *)
| EvClkDisable                  (* clk_disable(clk) *)
| EvSpinLock
| EvSpinUnlock
| EvLog (lvl : loglevel) (msg : string).

Definition is_write (e : event) : bool :=
  match e with EvWrite _ _ => true | _ => false end.

Definition is_clk_disable (e : event) : bool :=
  match e with EvClkDisable => true | _ => false end.

Definition is_read (e : event) : bool :=
  match e with EvRead _ _ => true | _ => false end.

(** The register writes of a trace, in order. *)
Definition writes (tr : list event) : list event := filter is_write tr.

(** The values written to the register at [off], in order. *)
Fixpoint writes_to (off : Z) (tr : list event) : list Z :=
  match tr with
  | [] => []
  | EvWrite v o :: tr' =>
      if o =? off then v :: writes_to off tr' else writes_to off tr'
  | _ :: tr' => writes_to off tr'
  end.

Definition clk_disables (tr : list event) : nat :=
  List.length (filter is_clk_disable tr).

Definition reads (tr : list event) : nat :=
  List.length (filter is_read tr).

(** ** The platform: register block and clock *)

Class Platform (hw : Type) : Type := {
  hw_ioread32 : Z -> hw -> Z * hw;
  hw_iowrite32 : Z -> Z -> hw -> hw;
  hw_clk_get_rate : hw -> Z;
  hw_clk_enable : hw -> Z * hw;
  hw_clk_disable : hw -> hw;
  (* ioread32 returns a u32, clk_get_rate an unsigned long *)
  hw_ioread32_u32 : forall off h, 0 <= fst (hw_ioread32 off h) < 2 ^ 32;
  hw_clk_get_rate_u64 : forall h, 0 <= hw_clk_get_rate h < 2 ^ 64
}.

(** ** Driver computations *)

(** What a driver function works on: the device structure and the
    platform behind its [base] and [clk] handles. *)
Record state (hw : Type) : Type := mk_state {
  st_xdev : xwdt_device;
  st_hw : hw
}.
Arguments mk_state {hw} _ _.
Arguments st_xdev {hw} _.
Arguments st_hw {hw} _.

(** The outcome of a driver function: the value it returns, what it did
    to the outside, in order, and the state it leaves. *)
Record result (hw A : Type) : Type := mk_result {
  res_val : A;
  res_trace : list event;
  res_state : state hw
}.
Arguments mk_result {hw A} _ _ _.
Arguments res_val {hw A} _.
Arguments res_trace {hw A} _.
Arguments res_state {hw A} _.

Definition M (hw A : Type) : Type := state hw -> result hw A.

Definition ret {hw A : Type} (a : A) : M hw A :=
  fun st => mk_result a [] st.

Definition bind {hw A B : Type} (m : M hw A) (k : A -> M hw B) : M hw B :=
  fun st =>
    match m st with
    | mk_result a tr1 st1 =>
        match k a st1 with
        | mk_result b tr2 st2 => mk_result b (tr1 ++ tr2) st2
        end
    end.

Declare Scope drv_scope.
Delimit Scope drv_scope with drv.
Notation "x <- m ;; k" := (bind m (fun x => k))
  (at level 61, m at next level, right associativity) : drv_scope.
Notation "m ;; k" := (bind m (fun _ => k))
  (at level 61, right associativity) : drv_scope.
Local Open Scope drv_scope.

Section Primitives.
Context {hw : Type} {PF : Platform hw}.

Definition emit (e : event) : M hw unit :=
  fun st => mk_result tt [e] st.

(** [ioread32(xdev->base + off)] *)
Definition ioread32 (off : Z) : M hw Z :=
  fun st =>
    let r := hw_ioread32 off (st_hw st) in
    mk_result (fst r) [EvRead off (fst r)] (mk_state (st_xdev st) (snd r)).

(** [iowrite32(val, xdev->base + off)] *)
Definition iowrite32 (val off : Z) : M hw unit :=
  fun st =>
    mk_result tt [EvWrite val off]
      (mk_state (st_xdev st) (hw_iowrite32 val off (st_hw st))).

(** [clk_get_rate(xdev->clk)] *)
Definition clk_get_rate : M hw Z :=
  fun st => mk_result (hw_clk_get_rate (st_hw st)) [] st.

(** [clk_enable(xdev->clk)] *)
Definition clk_enable : M hw Z :=
  fun st =>
    let r := hw_clk_enable (st_hw st) in
    mk_result (fst r) [EvClkEnable (fst r)] (mk_state (st_xdev st) (snd r)).

(** [clk_disable(xdev->clk)] *)
Definition clk_disable : M hw unit :=
  fun st =>
    mk_result tt [EvClkDisable]
      (mk_state (st_xdev st) (hw_clk_disable (st_hw st))).

Definition spin_lock : M hw unit := emit EvSpinLock.
Definition spin_unlock : M hw unit := emit EvSpinUnlock.

Definition dev_err (msg : string) : M hw unit := emit (EvLog LogErr msg).
Definition dev_warn (msg : string) : M hw unit := emit (EvLog LogWarn msg).
Definition dev_dbg (msg : string) : M hw unit := emit (EvLog LogDbg msg).

(** The watchdog device embedded in the device structure: [wdd] and
    [&xdev->xilinx_wdt_wdd] are the same object. *)
Definition get_wdd : M hw watchdog_device :=
  fun st => mk_result (xilinx_wdt_wdd (st_xdev st)) [] st.

Definition put_wdd (wdd : watchdog_device) : M hw unit :=
  fun st => mk_result tt [] (mk_state (with_wdd (st_xdev st) wdd) (st_hw st)).

Definition when (b : bool) (m : M hw unit) : M hw unit :=
  if b then m else ret tt.
End Primitives.

(** Diagnostics of the driver. *)
Definition nl : string := String (Ascii.ascii_of_nat 10) EmptyString.
Definition msg_clk_failed : string := ("Failed to enable clock" ++ nl)%string.
Definition msg_started : string := ("Watchdog Started!" ++ nl)%string.
Definition msg_stopped : string := ("Watchdog Stopped!" ++ nl)%string.
Definition msg_closed_window : string := "timer in closed window"%string.
Definition msg_timeout_range : string :=
  ("timeout value must be %d<=x<=%d, using %d" ++ nl)%string.
Definition msg_start_failed : string := "timer start failed"%string.

(** ** The plain variant *)

Section Plain.
Context {hw : Type} {PF : Platform hw}.

Definition xilinx_wdt_start : M hw Z :=
  r <- clk_enable ;;
  if truthy r then
    dev_err msg_clk_failed ;;
    ret r
  else
    spin_lock ;;
    (* Clean previous status and enable the watchdog timer *)
    control_status_reg <- ioread32 XWT_TWCSR0_OFFSET ;;
    let control_status_reg :=
      Z.lor control_status_reg (Z.lor XWT_CSR0_WRS_MASK XWT_CSR0_WDS_MASK) in
    iowrite32 (Z.lor control_status_reg XWT_CSR0_EWDT1_MASK) XWT_TWCSR0_OFFSET ;;
    iowrite32 XWT_CSRX_EWDT2_MASK XWT_TWCSR1_OFFSET ;;
    spin_unlock ;;
    dev_dbg msg_started ;;
    ret 0.

Definition xilinx_wdt_stop : M hw Z :=
  spin_lock ;;
  control_status_reg <- ioread32 XWT_TWCSR0_OFFSET ;;
  iowrite32 (wrap32 (Z.land control_status_reg (Z.lnot XWT_CSR0_EWDT1_MASK)))
            XWT_TWCSR0_OFFSET ;;
  iowrite32 0 XWT_TWCSR1_OFFSET ;;
  spin_unlock ;;
  clk_disable ;;
  dev_dbg msg_stopped ;;
  ret 0.

Definition xilinx_wdt_keepalive : M hw Z :=
  spin_lock ;;
  control_status_reg <- ioread32 XWT_TWCSR0_OFFSET ;;
  let control_status_reg :=
    Z.lor control_status_reg (Z.lor XWT_CSR0_WRS_MASK XWT_CSR0_WDS_MASK) in
  iowrite32 control_status_reg XWT_TWCSR0_OFFSET ;;
  spin_unlock ;;
  ret 0.
End Plain.

(** ** The window variant *)

(** The decision [is_wwdt_in_closed_window] takes on the value it read
    from the Enable/Status register. *)
Definition closed_window_of (control_status_reg : Z) : Z :=
  if truthy (Z.land control_status_reg XWT_WWDT_ESR_WEN_MASK) then
    if negb (truthy (Z.land control_status_reg XWT_WWDT_ESR_WSW_MASK)) then 0
    else 1
  else 1.

(** The window state the gated operations consult: Closed when
    [is_wwdt_in_closed_window] answers non-zero, Open when it answers 0. *)
Inductive window_state : Type := Closed | Open.

Definition window_state_of (control_status_reg : Z) : window_state :=
  if truthy (closed_window_of control_status_reg) then Closed else Open.

Section Window.
Context {hw : Type} {PF : Platform hw}.

Definition is_wwdt_in_closed_window : M hw Z :=
  control_status_reg <- ioread32 XWT_WWDT_ESR_OFFSET ;;
  ret (closed_window_of control_status_reg).

(** The register transaction of [xilinx_wwdt_start], from [spin_lock]
    to the final [return 0]. *)
Definition xilinx_wwdt_start_program (time_out pre_timeout : Z) : M hw Z :=
  spin_lock ;;
  iowrite32 XWT_WWDT_MWR_MASK XWT_WWDT_MWR_OFFSET ;;
  iowrite32 (not32 XWT_WWDT_ESR_WEN_MASK) XWT_WWDT_ESR_OFFSET ;;
  (if truthy pre_timeout then
     iowrite32 (wrap32 (wrap64 (time_out - pre_timeout))) XWT_WWDT_FWR_OFFSET ;;
     iowrite32 (wrap32 pre_timeout) XWT_WWDT_SWR_OFFSET ;;
     fcr <- ioread32 XWT_WWDT_SWR_OFFSET ;;
     let fcr := Z.land (Z.shiftr fcr XWT_WWDT_SBC_SHIFT) XWT_WWDT_SBC_MASK in
     let fcr := Z.lor fcr XWT_WWDT_BSS_MASK in
     iowrite32 fcr XWT_WWDT_FCR_OFFSET
   else
     iowrite32 (wrap32 pre_timeout) XWT_WWDT_FWR_OFFSET ;;
     iowrite32 (wrap32 time_out) XWT_WWDT_SWR_OFFSET ;;
     iowrite32 0x0 XWT_WWDT_FCR_OFFSET) ;;
  (* Enable the window watchdog timer *)
  control_status_reg <- ioread32 XWT_WWDT_ESR_OFFSET ;;
  let control_status_reg := Z.lor control_status_reg XWT_WWDT_ESR_WEN_MASK in
  iowrite32 control_status_reg XWT_WWDT_ESR_OFFSET ;;
  spin_unlock ;;
  dev_dbg msg_started ;;
  ret 0.

Definition xilinx_wwdt_start : M hw Z :=
  count <- clk_get_rate ;;
  if negb (truthy count) then ret (- EINVAL)
  else
    wdd <- get_wdd ;;
    (* Calculate timeout count *)
    let pre_timeout := wrap64 (count * pretimeout wdd) in
    let time_out := wrap64 (count * timeout wdd) in
    if negb (watchdog_active wdd) then
      r <- clk_enable ;;
      if truthy r then
        dev_err msg_clk_failed ;;
        ret r
      else xilinx_wwdt_start_program time_out pre_timeout
    else xilinx_wwdt_start_program time_out pre_timeout.

Definition xilinx_wwdt_stop : M hw Z :=
  closed <- is_wwdt_in_closed_window ;;
  if negb (truthy closed) then
    dev_warn msg_closed_window ;;
    ret (- EINVAL)
  else
    spin_lock ;;
    iowrite32 XWT_WWDT_MWR_MASK XWT_WWDT_MWR_OFFSET ;;
    (* Disable the Window watchdog timer *)
    iowrite32 (not32 XWT_WWDT_ESR_WEN_MASK) XWT_WWDT_ESR_OFFSET ;;
    spin_unlock ;;
    wdd <- get_wdd ;;
    when (watchdog_active wdd) clk_disable ;;
    dev_dbg msg_stopped ;;
    ret 0.

Definition xilinx_wwdt_keepalive : M hw Z :=
  closed <- is_wwdt_in_closed_window ;;
  (* Refresh in open window is ignored *)
  if negb (truthy closed) then ret 0
  else
    spin_lock ;;
    iowrite32 XWT_WWDT_MWR_MASK XWT_WWDT_MWR_OFFSET ;;
    control_status_reg <- ioread32 XWT_WWDT_ESR_OFFSET ;;
    let control_status_reg := Z.lor control_status_reg XWT_WWDT_ESR_WINT_MASK in
    let control_status_reg :=
      wrap32 (Z.land control_status_reg (Z.lnot XWT_WWDT_ESR_WSW_MASK)) in
    iowrite32 control_status_reg XWT_WWDT_ESR_OFFSET ;;
    control_status_reg <- ioread32 XWT_WWDT_ESR_OFFSET ;;
    let control_status_reg := Z.lor control_status_reg XWT_WWDT_ESR_WSW_MASK in
    iowrite32 control_status_reg XWT_WWDT_ESR_OFFSET ;;
    spin_unlock ;;
    ret 0.

Definition xilinx_wwdt_set_timeout (new_time : Z) : M hw Z :=
  closed <- is_wwdt_in_closed_window ;;
  if negb (truthy closed) then
    dev_warn msg_closed_window ;;
    ret (- EINVAL)
  else
    wdd <- get_wdd ;;
    if (new_time <? min_timeout wdd) || (new_time >? max_timeout wdd) then
      dev_warn msg_timeout_range ;;
      ret (- EINVAL)
    else
      put_wdd (with_timeout wdd new_time) ;;
      wdd <- get_wdd ;;
      put_wdd (with_pretimeout wdd 0) ;;
      wdd <- get_wdd ;;
      when (watchdog_active wdd)
        (r <- xilinx_wwdt_start ;;
         when (truthy (wrap32 r)) (dev_dbg msg_start_failed)) ;;
      ret 0.

Definition xilinx_wwdt_set_pretimeout (new_pretimeout : Z) : M hw Z :=
  closed <- is_wwdt_in_closed_window ;;
  if negb (truthy closed) then
    dev_warn msg_closed_window ;;
    ret (- EINVAL)
  else
    wdd <- get_wdd ;;
    if (new_pretimeout <? min_timeout wdd) || (new_pretimeout >=? timeout wdd) then
      ret (- EINVAL)
    else
      put_wdd (with_pretimeout wdd new_pretimeout) ;;
      wdd <- get_wdd ;;
      when (watchdog_active wdd)
        (r <- xilinx_wwdt_start ;;
         when (truthy (wrap32 r)) (dev_dbg msg_start_failed)) ;;
      ret 0.

(** The value the gate reads from the Enable/Status register when an
    operation is called in state [st]. *)
Definition esr_at (st : state hw) : Z :=
  fst (hw_ioread32 XWT_WWDT_ESR_OFFSET (st_hw st)).

(** The state the gate's read of the Enable/Status register leaves. *)
Definition after_gate (st : state hw) : state hw :=
  mk_state (st_xdev st) (snd (hw_ioread32 XWT_WWDT_ESR_OFFSET (st_hw st))).

(** The driver has one error code. The rejection by the window gate is
    the [-EINVAL] that comes with the warning of the gate. *)
Definition window_violation (r : result hw Z) : Prop :=
  res_val r = - EINVAL /\ In (EvLog LogWarn msg_closed_window) (res_trace r).

(** The rejection of a value out of range: [-EINVAL] without the
    warning of the gate. *)
Definition configuration_error (r : result hw Z) : Prop :=
  res_val r = - EINVAL /\ ~ In (EvLog LogWarn msg_closed_window) (res_trace r).
End Window.

(** ** The self-test of the plain variant *)

(** How many more times the loop of the self-test can run when its
    counter is [i]. *)
Definition selftest_budget (i : Z) : nat :=
  Z.to_nat (XWT_MAX_SELFTEST_LOOP_COUNT + 1 - i).
Arguments selftest_budget : simpl never.

Section SelfTest.
Context {hw : Type} {PF : Platform hw}.

(** The [for] loop of [xwdt_selftest], entered with counter [i]; it
    yields the last value of [timer_value2]. *)
Equations? selftest_loop (i timer_value1 timer_value2 : Z) : M hw Z
  by wf (selftest_budget i) lt :=
  selftest_loop i timer_value1 timer_value2 with Z_le_gt_dec i XWT_MAX_SELFTEST_LOOP_COUNT => {
    | left _ with timer_value2 =? timer_value1 => {
        | true :=
            timer_value2' <- ioread32 XWT_TBR_OFFSET ;;
            selftest_loop (i + 1) timer_value1 timer_value2'
        | false := ret timer_value2 }
    | right _ := ret timer_value2 }.
Proof. unfold selftest_budget, XWT_MAX_SELFTEST_LOOP_COUNT in *. lia. Qed.

Definition xwdt_selftest : M hw Z :=
  spin_lock ;;
  timer_value1 <- ioread32 XWT_TBR_OFFSET ;;
  timer_value2 <- ioread32 XWT_TBR_OFFSET ;;
  timer_value2 <- selftest_loop 0 timer_value1 timer_value2 ;;
  spin_unlock ;;
  if negb (timer_value2 =? timer_value1) then ret (not32 XWT_TIMER_FAILED)
  else ret XWT_TIMER_FAILED.

(** The platform after one read of the timebase register, and the
    value the read number [k] (from 0) of a run of reads returns. *)
Definition tbr_next (h : hw) : hw := snd (hw_ioread32 XWT_TBR_OFFSET h).

Definition tbr_read (k : nat) (h : hw) : Z :=
  fst (hw_ioread32 XWT_TBR_OFFSET (Nat.iter k tbr_next h)).
End SelfTest.

(** ** Attach time: the timeout block of [xwdt_probe] *)

(** What stops a C computation before it yields a value. *)
Inductive fault : Type :=
| DivideByZero
| ShiftOutOfRange.

Inductive outcome (A : Type) : Type :=
| Done (a : A)
| Fault (f : fault).
Arguments Done {A} _.
Arguments Fault {A} _.

(** The block of [xwdt_probe] that fills in the timeouts, the
    [if (wdttype == XWDT_WDT) ... else ...] that follows the clock lookup,
    up to the assignment of [max_timeout]. [pfreq] and [pre_timeout] are
    the locals of [xwdt_probe] as the lines before leave them: both start
    at 0, [pfreq] is the clock rate cut to 32 bits or the clock-frequency
    property, and stays 0 when there is neither. *)
Definition xwdt_probe_timeouts (wdttype : xwdt_ip_type) (pfreq pre_timeout : Z)
    (xdev : xwdt_device) : outcome xwdt_device :=
  let wdd := xilinx_wdt_wdd xdev in
  match wdttype with
  | XWDT_WDT =>
      (* Twice of the 2^wdt_interval / freq because the first wdt overflow
         is ignored (interrupt), reset is only generated at second wdt
         overflow *)
      if truthy pfreq && truthy (wdt_interval xdev) then
        if 32 <=? wdt_interval xdev then Fault ShiftOutOfRange
        else
          Done (with_wdd xdev
                  (with_timeout wdd
                     (wrap32 (2 * (wrap32 (Z.shiftl 1 (wdt_interval xdev)) / pfreq)))))
      else Done xdev
  | XWDT_WWDT =>
      let wdd := with_pretimeout wdd pre_timeout in
      let wdd := with_timeout wdd XWT_WWDT_DEFAULT_TIMEOUT in
      let wdd := with_min_timeout wdd XWT_WWDT_MIN_TIMEOUT in
      (* Calculate the allowed maximum timeout: SWDT window count register
         is 32 bit width *)
      if pfreq =? 0 then Fault DivideByZero
      else Done (with_wdd xdev (with_max_timeout wdd (U32_MAX / pfreq)))
  end.

(** ** Power management *)

Section PowerManagement.
Context {hw : Type} {PF : Platform hw}.

(** [wdd->ops->stop] and [wdd->ops->start]. *)
Definition ops_stop (o : watchdog_ops) : M hw Z :=
  match o with
  | xilinx_wdt_ops => xilinx_wdt_stop
  | xilinx_wwdt_ops => xilinx_wwdt_stop
  end.

Definition ops_start (o : watchdog_ops) : M hw Z :=
  match o with
  | xilinx_wdt_ops => xilinx_wdt_start
  | xilinx_wwdt_ops => xilinx_wwdt_start
  end.

Definition xwdt_suspend : M hw Z :=
  wdd <- get_wdd ;;
  when (watchdog_active wdd) (ops_stop (ops wdd) ;; ret tt) ;;
  ret 0.

Definition xwdt_resume : M hw Z :=
  wdd <- get_wdd ;;
  if watchdog_active wdd then ops_start (ops wdd) else ret 0.
End PowerManagement.

(** ** A simulated platform

    A register file that answers a read with the last value written and a
    clock with a fixed rate. The timebase register of the plain variant
    advances by a fixed step at each read; step 0 is a stopped counter. *)

Record simhw : Type := mk_simhw {
  sim_regs : list Z;           (* the register at offset 4k is element k *)
  sim_tbr_step : Z;
  sim_clk_rate : Z;
  sim_clk_enable_ret : Z;      (* what clk_enable answers *)
  sim_clk_enabled : Z          (* enable count of the clock *)
}.

Definition sim_index (off : Z) : nat := Z.to_nat (off / 4).

Fixpoint list_set (l : list Z) (n : nat) (v : Z) : list Z :=
  match l, n with
  | [], _ => []
  | _ :: l', O => v :: l'
  | x :: l', S n' => x :: list_set l' n' v
  end.

Definition sim_with_regs (h : simhw) (regs : list Z) : simhw :=
  {| sim_regs := regs; sim_tbr_step := sim_tbr_step h;
     sim_clk_rate := sim_clk_rate h;
     sim_clk_enable_ret := sim_clk_enable_ret h;
     sim_clk_enabled := sim_clk_enabled h |}.

Definition sim_with_enabled (h : simhw) (n : Z) : simhw :=
  {| sim_regs := sim_regs h; sim_tbr_step := sim_tbr_step h;
     sim_clk_rate := sim_clk_rate h;
     sim_clk_enable_ret := sim_clk_enable_ret h;
     sim_clk_enabled := n |}.

Definition sim_ioread32 (off : Z) (h : simhw) : Z * simhw :=
  let v := wrap32 (nth (sim_index off) (sim_regs h) 0) in
  (v,
   if (off =? XWT_TBR_OFFSET) && truthy (sim_tbr_step h) then
     sim_with_regs h (list_set (sim_regs h) (sim_index off) (wrap32 (v + sim_tbr_step h)))
   else h).

Definition sim_iowrite32 (val off : Z) (h : simhw) : simhw :=
  sim_with_regs h (list_set (sim_regs h) (sim_index off) (wrap32 val)).

Definition sim_clk_enable (h : simhw) : Z * simhw :=
  (sim_clk_enable_ret h,
   if truthy (sim_clk_enable_ret h) then h
   else sim_with_enabled h (sim_clk_enabled h + 1)).

Definition sim_clk_disable (h : simhw) : simhw :=
  sim_with_enabled h (sim_clk_enabled h - 1).

#[export] Instance sim_platform : Platform simhw := {|
  hw_ioread32 := sim_ioread32;
  hw_iowrite32 := sim_iowrite32;
  hw_clk_get_rate := fun h => wrap64 (sim_clk_rate h);
  hw_clk_enable := sim_clk_enable;
  hw_clk_disable := sim_clk_disable;
  hw_ioread32_u32 := fun off h =>
    Z.mod_pos_bound (nth (sim_index off) (sim_regs h) 0) (2 ^ 32) eq_refl;
  hw_clk_get_rate_u64 := fun h => Z.mod_pos_bound (sim_clk_rate h) (2 ^ 64) eq_refl
|}.

(** A window device as [xwdt_probe] configures it for a clock of
    100 MHz, with the given timeouts and status word. *)
Definition sim_wdd (t p st : Z) : watchdog_device :=
  {| ops := xilinx_wwdt_ops; timeout := t; pretimeout := p;
     min_timeout := XWT_WWDT_MIN_TIMEOUT; max_timeout := U32_MAX / 100000000;
     status := st |}.

Definition sim_xdev (t p st : Z) : xwdt_device :=
  {| wdt_interval := 0; xilinx_wdt_wdd := sim_wdd t p st; irq := 0 |}.

(** The window device with [esr] in its Enable/Status register. *)
Definition sim_window (esr t p st : Z) : state simhw :=
  mk_state (sim_xdev t p st)
    {| sim_regs := [0; esr; 0; 0; 0]; sim_tbr_step := 0;
       sim_clk_rate := 100000000; sim_clk_enable_ret := 0;
       sim_clk_enabled := if Z.testbit st WDOG_ACTIVE then 1 else 0 |}.

(** A plain device whose timebase starts at [tbr] and advances by [step]
    at each read. *)
Definition sim_plain (tbr step : Z) : state simhw :=
  mk_state
    {| wdt_interval := 30;
       xilinx_wdt_wdd :=
         {| ops := xilinx_wdt_ops; timeout := 0; pretimeout := 0;
            min_timeout := 0; max_timeout := 0; status := 0 |};
       irq := 0 |}
    {| sim_regs := [0; 0; tbr]; sim_tbr_step := step;
       sim_clk_rate := 100000000; sim_clk_enable_ret := 0;
       sim_clk_enabled := 1 |}.

(** ** Observations on traces: clock calls and the lock *)

Definition is_clk_enable (e : event) : bool :=
  match e with EvClkEnable _ => true | _ => false end.

Definition clk_enables (tr : list event) : nat :=
  List.length (filter is_clk_enable tr).

(** One pass over a trace with the state of the spinlock: the lock is not
    taken while held nor released while free, a register is written only
    while it is held, and the clock framework is called only while it is
    free. The answer is the state of the lock at the end, or [None] at
    the first step that breaks one of these. *)
Fixpoint lock_scan (held : bool) (tr : list event) : option bool :=
  match tr with
  | [] => Some held
  | EvSpinLock :: tr' => if held then None else lock_scan true tr'
  | EvSpinUnlock :: tr' => if held then lock_scan false tr' else None
  | EvWrite _ _ :: tr' => if held then lock_scan true tr' else None
  | EvClkEnable _ :: tr' => if held then None else lock_scan false tr'
  | EvClkDisable :: tr' => if held then None else lock_scan false tr'
  | _ :: tr' => lock_scan held tr'
  end.

(** A trace that starts and ends with the lock free and keeps the
    discipline in between. *)
Definition lock_disciplined (tr : list event) : Prop :=
  lock_scan false tr = Some false.

(** ** A suspend followed by a resume *)

Section SuspendResume.
Context {hw : Type} {PF : Platform hw}.

(** The two hooks of [xwdt_pm_ops], one after the other, as a system
    sleep runs them. *)
Definition xwdt_suspend_resume : M hw Z :=
  xwdt_suspend ;; xwdt_resume.
End SuspendResume.

(** ** More simulated devices *)

(** The window device of [sim_window] on a clock of [rate] Hz whose
    [clk_enable] answers [enable_ret]. *)
Definition sim_window_clk (esr t p st rate enable_ret : Z) : state simhw :=
  mk_state (sim_xdev t p st)
    {| sim_regs := [0; esr; 0; 0; 0]; sim_tbr_step := 0;
       sim_clk_rate := rate; sim_clk_enable_ret := enable_ret;
       sim_clk_enabled := if Z.testbit st WDOG_ACTIVE then 1 else 0 |}.

(** A plain device with [csr0] in Control/Status 0 and status word [st],
    whose [clk_enable] answers [enable_ret]. *)
Definition sim_plain_csr (csr0 st enable_ret : Z) : state simhw :=
  mk_state
    {| wdt_interval := 30;
       xilinx_wdt_wdd :=
         {| ops := xilinx_wdt_ops; timeout := 20; pretimeout := 0;
            min_timeout := 0; max_timeout := 0; status := st |};
       irq := 0 |}
    {| sim_regs := [csr0; 0; 0]; sim_tbr_step := 1;
       sim_clk_rate := 100000000; sim_clk_enable_ret := enable_ret;
       sim_clk_enabled := if Z.testbit st WDOG_ACTIVE then 1 else 0 |}.

(** * Properties *)

(** ** Bits and wrap-around *)

Lemma truthy_land_BIT (x n : Z) :
  0 <= n -> truthy (Z.land x (BIT n)) = Z.testbit x n.
Proof.
  intros Hn. unfold truthy, BIT. rewrite Z.shiftl_1_l.
  destruct (Z.testbit x n) eqn:E.
  - apply negb_true_iff, Z.eqb_neq. intros H0.
    assert (Hb : Z.testbit (Z.land x (2 ^ n)) n = true)
      by (rewrite Z.land_spec, E, Z.pow2_bits_true by assumption; reflexivity).
    rewrite H0, Z.bits_0 in Hb. discriminate.
  - apply negb_false_iff, Z.eqb_eq, Z.bits_inj'. intros m Hm.
    rewrite Z.land_spec, Z.bits_0, Z.pow2_bits_eqb by assumption.
    destruct (Z.eqb_spec n m) as [->|_].
    + rewrite E. reflexivity.
    + apply andb_false_r.
Qed.

Lemma closed_window_of_bits (esr : Z) :
  closed_window_of esr =
  if Z.testbit esr 0 then (if Z.testbit esr 8 then 1 else 0) else 1.
Proof.
  unfold closed_window_of, XWT_WWDT_ESR_WEN_MASK, XWT_WWDT_ESR_WSW_MASK.
  rewrite !truthy_land_BIT by lia.
  destruct (Z.testbit esr 0), (Z.testbit esr 8); reflexivity.
Qed.

Lemma window_state_of_bits (esr : Z) :
  window_state_of esr =
  if Z.testbit esr 0 then (if Z.testbit esr 8 then Closed else Open) else Closed.
Proof.
  unfold window_state_of. rewrite closed_window_of_bits.
  destruct (Z.testbit esr 0), (Z.testbit esr 8); reflexivity.
Qed.

Lemma window_open_gate (esr : Z) :
  window_state_of esr = Open <-> truthy (closed_window_of esr) = false.
Proof.
  unfold window_state_of. destruct (truthy (closed_window_of esr)); split; congruence.
Qed.

Lemma window_closed_gate (esr : Z) :
  window_state_of esr = Closed <-> truthy (closed_window_of esr) = true.
Proof.
  unfold window_state_of. destruct (truthy (closed_window_of esr)); split; congruence.
Qed.

Lemma wrap32_small (x : Z) : 0 <= x < 2 ^ 32 -> wrap32 x = x.
Proof. intros H. unfold wrap32. apply Z.mod_small. exact H. Qed.

Lemma wrap64_small (x : Z) : 0 <= x < 2 ^ 64 -> wrap64 x = x.
Proof. intros H. unfold wrap64. apply Z.mod_small. exact H. Qed.

Lemma wrap32_wrap64 (x : Z) : wrap32 (wrap64 x) = wrap32 x.
Proof.
  unfold wrap32, wrap64.
  apply Z.mod_mod_divide. exists (2 ^ 32). reflexivity.
Qed.

Lemma not32_WEN : not32 XWT_WWDT_ESR_WEN_MASK = 0xFFFFFFFE.
Proof. reflexivity. Qed.

(** ** Running a driver function *)

Ltac unfold_drv :=
  unfold is_wwdt_in_closed_window, when, spin_lock, spin_unlock,
    dev_err, dev_warn, dev_dbg, emit, get_wdd, put_wdd,
    ioread32, iowrite32, clk_get_rate, clk_enable, clk_disable,
    bind, ret in *.

Ltac simpl_drv :=
  cbn [res_val res_trace res_state st_xdev st_hw fst snd app
       xilinx_wdt_wdd with_wdd with_timeout with_pretimeout
       timeout pretimeout min_timeout max_timeout status ops negb] in *.

Ltac run_drv := unfold_drv; simpl_drv.

Section WindowProperties.
Context {hw : Type} {PF : Platform hw}.

Lemma stop_open (st : state hw) :
  window_state_of (esr_at st) = Open ->
  xilinx_wwdt_stop st =
  mk_result (- EINVAL)
    [EvRead XWT_WWDT_ESR_OFFSET (esr_at st); EvLog LogWarn msg_closed_window]
    (after_gate st).
Proof.
  intros Ho. apply window_open_gate in Ho.
  unfold xilinx_wwdt_stop. run_drv. fold (esr_at st). rewrite Ho.
  reflexivity.
Qed.

Lemma stop_closed (st : state hw) :
  window_state_of (esr_at st) = Closed ->
  xilinx_wwdt_stop st =
  let h1 := snd (hw_ioread32 XWT_WWDT_ESR_OFFSET (st_hw st)) in
  let h2 := hw_iowrite32 XWT_WWDT_MWR_MASK XWT_WWDT_MWR_OFFSET h1 in
  let h3 := hw_iowrite32 (not32 XWT_WWDT_ESR_WEN_MASK) XWT_WWDT_ESR_OFFSET h2 in
  let active := watchdog_active (xilinx_wdt_wdd (st_xdev st)) in
  mk_result 0
    ([EvRead XWT_WWDT_ESR_OFFSET (esr_at st); EvSpinLock;
      EvWrite XWT_WWDT_MWR_MASK XWT_WWDT_MWR_OFFSET;
      EvWrite (not32 XWT_WWDT_ESR_WEN_MASK) XWT_WWDT_ESR_OFFSET;
      EvSpinUnlock]
     ++ (if active then [EvClkDisable] else [])
     ++ [EvLog LogDbg msg_stopped])
    (mk_state (st_xdev st) (if active then hw_clk_disable h3 else h3)).
Proof.
  intros Hc. apply window_closed_gate in Hc.
  unfold xilinx_wwdt_stop. run_drv. fold (esr_at st). rewrite Hc.
  simpl_drv.
  destruct (watchdog_active (xilinx_wdt_wdd (st_xdev st))); reflexivity.
Qed.

Lemma keepalive_open (st : state hw) :
  window_state_of (esr_at st) = Open ->
  xilinx_wwdt_keepalive st =
  mk_result 0 [EvRead XWT_WWDT_ESR_OFFSET (esr_at st)] (after_gate st).
Proof.
  intros Ho. apply window_open_gate in Ho.
  unfold xilinx_wwdt_keepalive. run_drv. fold (esr_at st). rewrite Ho.
  reflexivity.
Qed.
End WindowProperties.

Ltac case_if :=
  match goal with
  | |- context [if ?b then _ else _] => destruct b eqn:?
  end.

Ltac not_in_trace :=
  let H := fresh in
  cbn [In app]; intros H;
  repeat (destruct H as [H | H]; [discriminate H |]); exact H.

Section StartProperties.
Context {hw : Type} {PF : Platform hw}.

Lemma start_keeps_xdev (st : state hw) :
  st_xdev (res_state (xilinx_wwdt_start st)) = st_xdev st.
Proof.
  unfold xilinx_wwdt_start, xilinx_wwdt_start_program. run_drv.
  repeat (case_if; simpl_drv); reflexivity.
Qed.

Lemma start_no_gate_warning (st : state hw) :
  ~ In (EvLog LogWarn msg_closed_window) (res_trace (xilinx_wwdt_start st)).
Proof.
  unfold xilinx_wwdt_start, xilinx_wwdt_start_program. run_drv.
  repeat (case_if; simpl_drv); not_in_trace.
Qed.
End StartProperties.

Section GateTheorems.
Context {hw : Type} {PF : Platform hw}.

(** C2, as the code has it: the gate reads Closed when the enable bit
    (bit 0) of the Enable/Status register is clear; when the enable bit
    is set it reads Open if the phase-switch bit (bit 8) is clear and
    Closed if it is set. Hence, with the device enabled and the
    phase-switch bit clear, stop returns the window-gate error and
    keepalive returns 0, neither writing a register. *)
Theorem window_state_classification (esr : Z) :
  (Z.testbit esr 0 = false -> window_state_of esr = Closed) /\
  (Z.testbit esr 0 = true -> Z.testbit esr 8 = true ->
   window_state_of esr = Closed) /\
  (Z.testbit esr 0 = true -> Z.testbit esr 8 = false ->
   window_state_of esr = Open) /\
  (forall st : state hw,
      esr_at st = esr ->
      Z.testbit esr 0 = true -> Z.testbit esr 8 = false ->
      window_violation (xilinx_wwdt_stop st) /\
      writes (res_trace (xilinx_wwdt_stop st)) = [] /\
      res_val (xilinx_wwdt_keepalive st) = 0 /\
      writes (res_trace (xilinx_wwdt_keepalive st)) = []).
Proof.
  rewrite window_state_of_bits.
  repeat split; try (intros ->; try intros ->; reflexivity).
  all: intros; subst esr;
    assert (Ho : window_state_of (esr_at st) = Open)
      by (rewrite window_state_of_bits; repeat
            match goal with H : Z.testbit _ _ = _ |- _ => rewrite H; clear H end;
          reflexivity).
  - rewrite (stop_open st Ho). reflexivity.
  - rewrite (stop_open st Ho). cbn. auto.
  - rewrite (stop_open st Ho). reflexivity.
  - rewrite (keepalive_open st Ho). reflexivity.
  - rewrite (keepalive_open st Ho). reflexivity.
Qed.

(** C3: stop of the window variant, called while the window state reads
    Open, fails with the window-gate error and writes no register;
    called while it reads Closed, it succeeds, writes the Enable/Status
    register once with a value whose enable bit is clear and disables
    the clock exactly once if the device was active (and not at all
    otherwise). *)
Theorem wwdt_stop_gated (st : state hw) :
  let r := xilinx_wwdt_stop st in
  (window_state_of (esr_at st) = Open ->
   window_violation r /\ writes (res_trace r) = [] /\
   res_state r = after_gate st) /\
  (window_state_of (esr_at st) = Closed ->
   res_val r = 0 /\
   (exists v, writes_to XWT_WWDT_ESR_OFFSET (res_trace r) = [v] /\
              Z.testbit v 0 = false) /\
   clk_disables (res_trace r) =
     (if watchdog_active (xilinx_wdt_wdd (st_xdev st)) then 1%nat else 0%nat)).
Proof.
  intros r. subst r. split; intros Hw.
  - rewrite (stop_open st Hw). unfold window_violation. cbn. auto.
  - rewrite (stop_closed st Hw). cbv zeta. simpl_drv. split; [reflexivity |].
    split.
    + exists (not32 XWT_WWDT_ESR_WEN_MASK).
      destruct (watchdog_active (xilinx_wdt_wdd (st_xdev st))); split; reflexivity.
    + destruct (watchdog_active (xilinx_wdt_wdd (st_xdev st))); reflexivity.
Qed.

(** C4: keepalive of the window variant, called while the window state
    reads Open, returns 0 and does nothing but the gate's read of the
    Enable/Status register: no register write, the device structure
    untouched, and the whole state as it was when that read has no
    side effect on the device. *)
Theorem wwdt_keepalive_open_noop (st : state hw) :
  window_state_of (esr_at st) = Open ->
  let r := xilinx_wwdt_keepalive st in
  res_val r = 0 /\
  res_trace r = [EvRead XWT_WWDT_ESR_OFFSET (esr_at st)] /\
  writes (res_trace r) = [] /\
  res_state r = after_gate st /\
  (snd (hw_ioread32 XWT_WWDT_ESR_OFFSET (st_hw st)) = st_hw st ->
   res_state r = st).
Proof.
  intros Ho r. subst r. rewrite (keepalive_open st Ho). simpl_drv.
  repeat split. intros Hpure. unfold after_gate. rewrite Hpure.
  destruct st; reflexivity.
Qed.
End GateTheorems.

Section SetterProperties.
Context {hw : Type} {PF : Platform hw}.

Lemma set_timeout_open (new_time : Z) (st : state hw) :
  window_state_of (esr_at st) = Open ->
  xilinx_wwdt_set_timeout new_time st =
  mk_result (- EINVAL)
    [EvRead XWT_WWDT_ESR_OFFSET (esr_at st); EvLog LogWarn msg_closed_window]
    (after_gate st).
Proof.
  intros Ho. apply window_open_gate in Ho.
  unfold xilinx_wwdt_set_timeout. run_drv. fold (esr_at st). rewrite Ho.
  reflexivity.
Qed.

Lemma set_pretimeout_open (new_pretimeout : Z) (st : state hw) :
  window_state_of (esr_at st) = Open ->
  xilinx_wwdt_set_pretimeout new_pretimeout st =
  mk_result (- EINVAL)
    [EvRead XWT_WWDT_ESR_OFFSET (esr_at st); EvLog LogWarn msg_closed_window]
    (after_gate st).
Proof.
  intros Ho. apply window_open_gate in Ho.
  unfold xilinx_wwdt_set_pretimeout. run_drv. fold (esr_at st). rewrite Ho.
  reflexivity.
Qed.

Lemma set_timeout_closed_rejected (new_time : Z) (st : state hw) :
  window_state_of (esr_at st) = Closed ->
  (new_time <? min_timeout (xilinx_wdt_wdd (st_xdev st)))
  || (new_time >? max_timeout (xilinx_wdt_wdd (st_xdev st))) = true ->
  xilinx_wwdt_set_timeout new_time st =
  mk_result (- EINVAL)
    [EvRead XWT_WWDT_ESR_OFFSET (esr_at st); EvLog LogWarn msg_timeout_range]
    (after_gate st).
Proof.
  intros Hc Hr. apply window_closed_gate in Hc.
  unfold xilinx_wwdt_set_timeout. run_drv. fold (esr_at st). rewrite Hc.
  simpl_drv. rewrite Hr. reflexivity.
Qed.

Lemma set_pretimeout_closed_rejected (new_pretimeout : Z) (st : state hw) :
  window_state_of (esr_at st) = Closed ->
  (new_pretimeout <? min_timeout (xilinx_wdt_wdd (st_xdev st)))
  || (new_pretimeout >=? timeout (xilinx_wdt_wdd (st_xdev st))) = true ->
  xilinx_wwdt_set_pretimeout new_pretimeout st =
  mk_result (- EINVAL) [EvRead XWT_WWDT_ESR_OFFSET (esr_at st)] (after_gate st).
Proof.
  intros Hc Hr. apply window_closed_gate in Hc.
  unfold xilinx_wwdt_set_pretimeout. run_drv. fold (esr_at st). rewrite Hc.
  simpl_drv. rewrite Hr. reflexivity.
Qed.

Lemma set_timeout_closed_accepted (new_time : Z) (st : state hw) :
  window_state_of (esr_at st) = Closed ->
  (new_time <? min_timeout (xilinx_wdt_wdd (st_xdev st)))
  || (new_time >? max_timeout (xilinx_wdt_wdd (st_xdev st))) = false ->
  let r := xilinx_wwdt_set_timeout new_time st in
  res_val r = 0 /\
  st_xdev (res_state r) =
    with_wdd (st_xdev st)
      (with_pretimeout (with_timeout (xilinx_wdt_wdd (st_xdev st)) new_time) 0) /\
  ~ In (EvLog LogWarn msg_closed_window) (res_trace r).
Proof.
  intros Hc Hr r. subst r. apply window_closed_gate in Hc.
  unfold xilinx_wwdt_set_timeout. run_drv. fold (esr_at st). rewrite Hc.
  simpl_drv. rewrite Hr. simpl_drv.
  destruct (watchdog_active (xilinx_wdt_wdd (st_xdev st))) eqn:Ha;
    unfold watchdog_active in *; simpl_drv; rewrite ?Ha; simpl_drv.
  - match goal with
    | |- context [xilinx_wwdt_start ?s] =>
        pose proof (start_keeps_xdev s) as Hx;
        pose proof (start_no_gate_warning s) as Hn;
        destruct (xilinx_wwdt_start s) as [v tr s']
    end.
    simpl_drv. destruct (truthy (wrap32 v)); simpl_drv.
    all: rewrite Hx; repeat split.
    all: intros H; cbn [In app] in H; rewrite ?in_app_iff in H; cbn [In] in H.
    all: intuition discriminate.
  - repeat split. not_in_trace.
Qed.

Lemma set_pretimeout_closed_accepted (new_pretimeout : Z) (st : state hw) :
  window_state_of (esr_at st) = Closed ->
  (new_pretimeout <? min_timeout (xilinx_wdt_wdd (st_xdev st)))
  || (new_pretimeout >=? timeout (xilinx_wdt_wdd (st_xdev st))) = false ->
  let r := xilinx_wwdt_set_pretimeout new_pretimeout st in
  res_val r = 0 /\
  st_xdev (res_state r) =
    with_wdd (st_xdev st)
      (with_pretimeout (xilinx_wdt_wdd (st_xdev st)) new_pretimeout) /\
  ~ In (EvLog LogWarn msg_closed_window) (res_trace r).
Proof.
  intros Hc Hr r. subst r. apply window_closed_gate in Hc.
  unfold xilinx_wwdt_set_pretimeout. run_drv. fold (esr_at st). rewrite Hc.
  simpl_drv. rewrite Hr. simpl_drv.
  destruct (watchdog_active (xilinx_wdt_wdd (st_xdev st))) eqn:Ha;
    unfold watchdog_active in *; simpl_drv; rewrite ?Ha; simpl_drv.
  - match goal with
    | |- context [xilinx_wwdt_start ?s] =>
        pose proof (start_keeps_xdev s) as Hx;
        pose proof (start_no_gate_warning s) as Hn;
        destruct (xilinx_wwdt_start s) as [v tr s']
    end.
    simpl_drv. destruct (truthy (wrap32 v)); simpl_drv.
    all: rewrite Hx; repeat split.
    all: intros H; cbn [In app] in H; rewrite ?in_app_iff in H; cbn [In] in H.
    all: intuition discriminate.
  - repeat split. not_in_trace.
Qed.
End SetterProperties.

Section SetterTheorems.
Context {hw : Type} {PF : Platform hw}.

(** C5: set_timeout and set_pretimeout of the window variant fail with
    the window-gate error exactly when the window state reads Open at
    the call, and whenever either of them fails (window gate or value
    out of range) the device structure, hence the stored timeout and
    pretimeout, is as it was. *)
Theorem wwdt_setters_window_violation (new_value : Z) (st : state hw) :
  (window_violation (xilinx_wwdt_set_timeout new_value st) <->
   window_state_of (esr_at st) = Open) /\
  (window_violation (xilinx_wwdt_set_pretimeout new_value st) <->
   window_state_of (esr_at st) = Open) /\
  (res_val (xilinx_wwdt_set_timeout new_value st) <> 0 ->
   st_xdev (res_state (xilinx_wwdt_set_timeout new_value st)) = st_xdev st) /\
  (res_val (xilinx_wwdt_set_pretimeout new_value st) <> 0 ->
   st_xdev (res_state (xilinx_wwdt_set_pretimeout new_value st)) = st_xdev st).
Proof.
  destruct (window_state_of (esr_at st)) eqn:Hw.
  - (* Closed *)
    destruct ((new_value <? min_timeout (xilinx_wdt_wdd (st_xdev st)))
              || (new_value >? max_timeout (xilinx_wdt_wdd (st_xdev st)))) eqn:Ht;
    destruct ((new_value <? min_timeout (xilinx_wdt_wdd (st_xdev st)))
              || (new_value >=? timeout (xilinx_wdt_wdd (st_xdev st)))) eqn:Hp.
    all: try rewrite (set_timeout_closed_rejected _ _ Hw Ht).
    all: try rewrite (set_pretimeout_closed_rejected _ _ Hw Hp).
    all: try (destruct (set_timeout_closed_accepted _ _ Hw Ht) as (Ht0 & _ & Htn)).
    all: try (destruct (set_pretimeout_closed_accepted _ _ Hw Hp) as (Hp0 & _ & Hpn)).
    all: unfold window_violation; simpl_drv.
    all: repeat split; try discriminate; try reflexivity; try congruence.
    all: try (intros [_ Hin]; exfalso; revert Hin; solve [not_in_trace | assumption]).
  - (* Open *)
    rewrite (set_timeout_open _ _ Hw), (set_pretimeout_open _ _ Hw).
    unfold window_violation. simpl_drv. cbn [In].
    repeat split; auto.
Qed.

(** C6, as the code has it: set_pretimeout, called while the window
    state reads Closed, accepts every new pretimeout from the minimum
    timeout up to, and not including, the timeout: it returns 0 and
    stores the value, the timeout unchanged. For every value at or
    above the timeout, and for every value below the minimum timeout
    (0 included, the minimum being 1 on the window variant), it fails
    with [-EINVAL], not by the window gate, writes no register and
    leaves the device structure as it was. *)
Theorem wwdt_set_pretimeout_closed (new_pretimeout : Z) (st : state hw) :
  window_state_of (esr_at st) = Closed ->
  let wdd := xilinx_wdt_wdd (st_xdev st) in
  let r := xilinx_wwdt_set_pretimeout new_pretimeout st in
  (min_timeout wdd <= new_pretimeout < timeout wdd ->
   res_val r = 0 /\
   pretimeout (xilinx_wdt_wdd (st_xdev (res_state r))) = new_pretimeout /\
   timeout (xilinx_wdt_wdd (st_xdev (res_state r))) = timeout wdd) /\
  (new_pretimeout >= timeout wdd \/ new_pretimeout < min_timeout wdd ->
   configuration_error r /\
   writes (res_trace r) = [] /\
   st_xdev (res_state r) = st_xdev st).
Proof.
  intros Hw wdd r. subst wdd r. split; intros Hb.
  - assert (Hp : (new_pretimeout <? min_timeout (xilinx_wdt_wdd (st_xdev st)))
                 || (new_pretimeout >=? timeout (xilinx_wdt_wdd (st_xdev st))) = false)
      by (apply orb_false_iff; split; [apply Z.ltb_ge | rewrite Z.geb_leb; apply Z.leb_gt]; lia).
    destruct (set_pretimeout_closed_accepted _ _ Hw Hp) as (H0 & Hx & _).
    rewrite H0, Hx. repeat split.
  - assert (Hp : (new_pretimeout <? min_timeout (xilinx_wdt_wdd (st_xdev st)))
                 || (new_pretimeout >=? timeout (xilinx_wdt_wdd (st_xdev st))) = true).
    { apply orb_true_iff. destruct Hb as [Hb | Hb].
      - right. rewrite Z.geb_leb. apply Z.leb_le. lia.
      - left. apply Z.ltb_lt. exact Hb. }
    rewrite (set_pretimeout_closed_rejected _ _ Hw Hp).
    unfold configuration_error. simpl_drv. repeat split. not_in_trace.
Qed.

(** C10: a set_timeout of the window variant that succeeds leaves the
    stored pretimeout at 0, whatever it was before, and the timeout at
    the new value. *)
Theorem wwdt_set_timeout_resets_pretimeout (new_time : Z) (st : state hw) :
  res_val (xilinx_wwdt_set_timeout new_time st) = 0 ->
  pretimeout (xilinx_wdt_wdd (st_xdev (res_state (xilinx_wwdt_set_timeout new_time st)))) = 0 /\
  timeout (xilinx_wdt_wdd (st_xdev (res_state (xilinx_wwdt_set_timeout new_time st)))) = new_time.
Proof.
  intros Hok.
  destruct (window_state_of (esr_at st)) eqn:Hw.
  - destruct ((new_time <? min_timeout (xilinx_wdt_wdd (st_xdev st)))
              || (new_time >? max_timeout (xilinx_wdt_wdd (st_xdev st)))) eqn:Ht.
    + rewrite (set_timeout_closed_rejected _ _ Hw Ht) in Hok. discriminate Hok.
    + destruct (set_timeout_closed_accepted _ _ Hw Ht) as (_ & Hx & _).
      rewrite Hx. split; reflexivity.
  - rewrite (set_timeout_open _ _ Hw) in Hok. discriminate Hok.
Qed.
End SetterTheorems.

Section StartTheorems.
Context {hw : Type} {PF : Platform hw}.

Lemma cycles_fit (f T P : Z) :
  0 < f -> 1 <= T <= U32_MAX / f -> 0 <= P < T ->
  0 <= f * P /\ f * P < f * T /\ f * T < 2 ^ 32.
Proof.
  intros Hf HT HP.
  assert (Hmax : f * (U32_MAX / f) <= U32_MAX) by (apply Z.mul_div_le; lia).
  unfold U32_MAX in *. nia.
Qed.

(** C1: when the clock runs at [f] > 0 Hz, the timeout is [T] with
    1 <= T <= floor((2^32-1)/f) and the pretimeout is [P] with
    0 <= P < T, a start of the window variant whose clock is or can be
    enabled returns 0 and writes the First-Window and the Second-Window
    register once each, with values that add up to f*T modulo 2^32.
    With P = 0 it writes 0 to First-Window, f*T to Second-Window and 0
    to Function-Control; with f = 100 MHz, T = 10 and P = 2 it writes
    800000000 to First-Window and 200000000 to Second-Window. *)
Theorem wwdt_start_window_registers (st : state hw) (f T P : Z) :
  hw_clk_get_rate (st_hw st) = f ->
  timeout (xilinx_wdt_wdd (st_xdev st)) = T ->
  pretimeout (xilinx_wdt_wdd (st_xdev st)) = P ->
  0 < f -> 1 <= T <= U32_MAX / f -> 0 <= P < T ->
  watchdog_active (xilinx_wdt_wdd (st_xdev st)) = true \/
  fst (hw_clk_enable (st_hw st)) = 0 ->
  let r := xilinx_wwdt_start st in
  res_val r = 0 /\
  exists fw sw,
    writes_to XWT_WWDT_FWR_OFFSET (res_trace r) = [fw] /\
    writes_to XWT_WWDT_SWR_OFFSET (res_trace r) = [sw] /\
    (fw + sw) mod 2 ^ 32 = (f * T) mod 2 ^ 32 /\
    (P = 0 ->
     fw = 0 /\ sw = f * T /\
     writes_to XWT_WWDT_FCR_OFFSET (res_trace r) = [0]) /\
    (f = 100000000 -> T = 10 -> P = 2 ->
     fw = 800000000 /\ sw = 200000000).
Proof.
  intros Hrate HT HP Hf HTb HPb Hclk r. subst r.
  destruct (cycles_fit f T P Hf HTb HPb) as (Hp0 & Hpt & Ht32).
  assert (Hpre : wrap64 (f * P) = f * P) by (apply wrap64_small; lia).
  assert (Htot : wrap64 (f * T) = f * T) by (apply wrap64_small; lia).
  assert (Hcount : truthy f = true)
    by (apply negb_true_iff, Z.eqb_neq; lia).
  unfold xilinx_wwdt_start. run_drv.
  rewrite Hrate, Hcount. simpl_drv. rewrite HT, HP, Hpre, Htot.
  assert (Hprog :
    let p := xilinx_wwdt_start_program (f * T) (f * P) in
    forall s : state hw,
      res_val (p s) = 0 /\
      exists fw sw,
        writes_to XWT_WWDT_FWR_OFFSET (res_trace (p s)) = [fw] /\
        writes_to XWT_WWDT_SWR_OFFSET (res_trace (p s)) = [sw] /\
        (fw + sw) mod 2 ^ 32 = (f * T) mod 2 ^ 32 /\
        (P = 0 ->
         fw = 0 /\ sw = f * T /\
         writes_to XWT_WWDT_FCR_OFFSET (res_trace (p s)) = [0]) /\
        (f = 100000000 -> T = 10 -> P = 2 ->
         fw = 800000000 /\ sw = 200000000)).
  { intros p s. subst p. unfold xilinx_wwdt_start_program. run_drv.
    destruct (truthy (f * P)) eqn:Hz; simpl_drv.
    - split; [reflexivity |].
      exists (wrap32 (wrap64 (f * T - f * P))), (wrap32 (f * P)).
      assert (Hne : P <> 0).
      { intros E. rewrite E, Z.mul_0_r in Hz. discriminate Hz. }
      rewrite wrap64_small, !wrap32_small by lia.
      split; [reflexivity |]. split; [reflexivity |].
      split; [f_equal; lia |]. split.
      + intros E. contradiction.
      + intros Ef ET EP. rewrite Ef, ET, EP. split; reflexivity.
    - split; [reflexivity |].
      assert (HP0 : P = 0).
      { apply negb_false_iff, Z.eqb_eq in Hz. nia. }
      exists (wrap32 (f * P)), (wrap32 (f * T)).
      rewrite HP0, Z.mul_0_r, !wrap32_small by lia.
      split; [reflexivity |]. split; [reflexivity |].
      split; [reflexivity |]. split.
      + intros _. repeat split.
      + intros _ _ E. lia. }
  cbv zeta in Hprog.
  destruct (watchdog_active (xilinx_wdt_wdd (st_xdev st))) eqn:Ha; simpl_drv.
  - match goal with
    | |- context [xilinx_wwdt_start_program ?a ?b ?s] =>
        specialize (Hprog s);
        destruct (xilinx_wwdt_start_program a b s) as [v tr s']
    end.
    simpl_drv. exact Hprog.
  - destruct Hclk as [Hclk | Hclk]; [discriminate Hclk |].
    rewrite Hclk. cbn [truthy Z.eqb negb]. simpl_drv.
    match goal with
    | |- context [xilinx_wwdt_start_program ?a ?b ?s] =>
        specialize (Hprog s);
        destruct (xilinx_wwdt_start_program a b s) as [v tr s']
    end.
    simpl_drv. cbn [writes_to]. exact Hprog.
Qed.
End StartTheorems.

(** ** The self-test loop *)

Lemma reads_app (tr1 tr2 : list event) :
  reads (tr1 ++ tr2) = (reads tr1 + reads tr2)%nat.
Proof. unfold reads. rewrite filter_app, length_app. reflexivity. Qed.

Lemma reads_repeat (off v : Z) (n : nat) : reads (repeat (EvRead off v) n) = n.
Proof.
  unfold reads. induction n as [| n IH]; [reflexivity |].
  cbn. f_equal. exact IH.
Qed.

Ltac fold_tbr_next :=
  repeat match goal with
         | |- context [snd (hw_ioread32 XWT_TBR_OFFSET ?x)] =>
             change (snd (hw_ioread32 XWT_TBR_OFFSET x)) with (tbr_next x)
         end.

Section SelfTestProperties.
Context {hw : Type} {PF : Platform hw}.

Lemma tbr_read_next (k : nat) (h : hw) :
  tbr_read k (tbr_next h) = tbr_read (S k) h.
Proof. unfold tbr_read. rewrite Nat.iter_succ_r. reflexivity. Qed.

Lemma budget_zero (i : Z) :
  selftest_budget i = 0%nat -> i > XWT_MAX_SELFTEST_LOOP_COUNT.
Proof. unfold selftest_budget. lia. Qed.

Lemma budget_succ (i : Z) (n : nat) :
  selftest_budget i = S n ->
  i <= XWT_MAX_SELFTEST_LOOP_COUNT /\ selftest_budget (i + 1) = n.
Proof. unfold selftest_budget. lia. Qed.

(** On a timebase that keeps answering [v], the loop entered with both
    values equal to [v] reads as many times as its budget allows. *)
Lemma selftest_loop_stuck (n : nat) :
  forall (i v : Z) (xdev : xwdt_device) (h : hw),
    selftest_budget i = n ->
    (forall k, tbr_read k h = v) ->
    selftest_loop i v v (mk_state xdev h) =
    mk_result v (repeat (EvRead XWT_TBR_OFFSET v) n)
      (mk_state xdev (Nat.iter n tbr_next h)).
Proof.
  induction n as [| n IH]; intros i v xdev h Hb Hstuck.
  - apply budget_zero in Hb. simp selftest_loop.
    destruct (Z_le_gt_dec i XWT_MAX_SELFTEST_LOOP_COUNT) as [Hle | Hgt];
      [lia | reflexivity].
  - apply budget_succ in Hb. destruct Hb as [Hle Hb]. simp selftest_loop.
    destruct (Z_le_gt_dec i XWT_MAX_SELFTEST_LOOP_COUNT) as [Hle' | Hgt];
      [| lia].
    cbn. rewrite Z.eqb_refl. cbn. run_drv.
    pose proof (Hstuck 0%nat) as H0. unfold tbr_read in H0. cbn in H0.
    rewrite H0. fold (tbr_next h).
    rewrite (IH (i + 1) v xdev (tbr_next h) Hb).
    + rewrite <- Nat.iter_succ_r. reflexivity.
    + intros k. rewrite tbr_read_next. apply Hstuck.
Qed.

(** The loop ends on a value other than [v1] as soon as the value it
    holds differs or one of the reads its budget allows differs. *)
Lemma selftest_loop_changed (n : nat) :
  forall (i v1 v2 : Z) (xdev : xwdt_device) (h : hw),
    selftest_budget i = n ->
    v2 <> v1 \/ (exists k, (k < n)%nat /\ tbr_read k h <> v1) ->
    res_val (selftest_loop i v1 v2 (mk_state xdev h)) <> v1.
Proof.
  induction n as [| n IH]; intros i v1 v2 xdev h Hb Hch.
  - destruct Hch as [Hne | (k & Hk & _)]; [| lia].
    simp selftest_loop.
    destruct (Z_le_gt_dec i XWT_MAX_SELFTEST_LOOP_COUNT); cbn;
      [destruct (Z.eqb_spec v2 v1); [contradiction |] |]; exact Hne.
  - apply budget_succ in Hb. destruct Hb as [Hle Hb]. simp selftest_loop.
    destruct (Z_le_gt_dec i XWT_MAX_SELFTEST_LOOP_COUNT) as [Hle' | Hgt];
      [| lia].
    cbn. destruct (Z.eqb_spec v2 v1) as [-> | Hne]; cbn; [| exact Hne].
    destruct Hch as [Hne | (k & Hk & Hrd)]; [contradiction |].
    run_drv.
    match goal with
    | |- context [selftest_loop ?a ?b ?c ?s] =>
        pose proof (IH a b c xdev (tbr_next h) Hb) as IH';
        change s with (mk_state xdev (tbr_next h));
        destruct (selftest_loop a b c (mk_state xdev (tbr_next h)))
    end.
    simpl_drv. apply IH'.
    destruct k as [| k].
    + left. exact Hrd.
    + right. exists k. split; [lia |]. rewrite tbr_read_next. exact Hrd.
Qed.

(** C8, as the code has it: on a timebase register that answers every
    read with the same value the self-test returns, reporting failure
    ([XWT_TIMER_FAILED]), after its two initial reads and
    [XWT_MAX_SELFTEST_LOOP_COUNT + 1] = 65537 reads of the loop, one
    more than the count the constant names. *)
Theorem xwdt_selftest_stuck (st : state hw) :
  (forall k, tbr_read k (st_hw st) = tbr_read 0 (st_hw st)) ->
  let r := xwdt_selftest st in
  res_val r = XWT_TIMER_FAILED /\
  Z.of_nat (reads (res_trace r)) = 2 + (XWT_MAX_SELFTEST_LOOP_COUNT + 1) /\
  Z.of_nat (reads (res_trace r)) = 65539.
Proof.
  intros Hstuck r. subst r. destruct st as [xdev h]. cbn [st_hw] in Hstuck.
  set (v := tbr_read 0 h) in *.
  assert (H0 : fst (hw_ioread32 XWT_TBR_OFFSET h) = v) by reflexivity.
  assert (H1 : fst (hw_ioread32 XWT_TBR_OFFSET (tbr_next h)) = v)
    by (apply (Hstuck 1%nat)).
  unfold xwdt_selftest. run_drv. fold_tbr_next. rewrite H0, H1.
  rewrite (selftest_loop_stuck (selftest_budget 0) 0 v xdev
             (tbr_next (tbr_next h)) eq_refl).
  - simpl_drv. rewrite Z.eqb_refl. simpl_drv.
    assert (Hreads :
      Z.of_nat (reads
        (EvSpinLock :: EvRead XWT_TBR_OFFSET v :: EvRead XWT_TBR_OFFSET v
         :: (repeat (EvRead XWT_TBR_OFFSET v) (selftest_budget 0)
               ++ [EvSpinUnlock]) ++ [])) = 65539).
    { change (EvSpinLock :: EvRead XWT_TBR_OFFSET v :: EvRead XWT_TBR_OFFSET v
              :: (repeat (EvRead XWT_TBR_OFFSET v) (selftest_budget 0)
                    ++ [EvSpinUnlock]) ++ [])
        with ([EvSpinLock; EvRead XWT_TBR_OFFSET v; EvRead XWT_TBR_OFFSET v]
              ++ (repeat (EvRead XWT_TBR_OFFSET v) (selftest_budget 0)
                    ++ [EvSpinUnlock]) ++ []).
      rewrite !reads_app, reads_repeat.
      change (reads [EvSpinLock; EvRead XWT_TBR_OFFSET v; EvRead XWT_TBR_OFFSET v])
        with 2%nat.
      change (reads [EvSpinUnlock]) with 0%nat.
      change (reads []) with 0%nat.
      unfold selftest_budget, XWT_MAX_SELFTEST_LOOP_COUNT. lia. }
    split; [reflexivity |]. split; exact Hreads.
  - intros k. rewrite !tbr_read_next. apply Hstuck.
Qed.

(** The other half of the self-test: when one of the reads after the
    first, up to the last one the loop can make, answers another value
    than the first, the self-test reports pass (0). *)
Lemma xwdt_selftest_pass (st : state hw) (k : nat) :
  (1 <= k)%nat -> Z.of_nat k <= XWT_MAX_SELFTEST_LOOP_COUNT + 2 ->
  tbr_read k (st_hw st) <> tbr_read 0 (st_hw st) ->
  res_val (xwdt_selftest st) = 0.
Proof.
  intros Hk1 Hk2 Hch. destruct st as [xdev h]. cbn [st_hw] in Hch.
  unfold xwdt_selftest. run_drv. fold_tbr_next.
  match goal with
  | |- context [selftest_loop ?a ?b ?c ?s] =>
      pose proof (selftest_loop_changed (selftest_budget 0) a b c xdev
                    (tbr_next (tbr_next h)) eq_refl) as Hl;
      change s with (mk_state xdev (tbr_next (tbr_next h)));
      destruct (selftest_loop a b c (mk_state xdev (tbr_next (tbr_next h))))
        as [v2 tr s2]
  end.
  simpl_drv.
  assert (Hne : v2 <> fst (hw_ioread32 XWT_TBR_OFFSET h)).
  { apply Hl. destruct k as [| [| k]]; [lia | left; exact Hch | right].
    exists k. split.
    - unfold selftest_budget, XWT_MAX_SELFTEST_LOOP_COUNT in *. lia.
    - rewrite !tbr_read_next. exact Hch. }
  destruct (Z.eqb_spec v2 (fst (hw_ioread32 XWT_TBR_OFFSET h)));
    [contradiction | reflexivity].
Qed.
End SelfTestProperties.

(** ** Suspend *)

Section SuspendTheorems.
Context {hw : Type} {PF : Platform hw}.

Lemma suspend_returns_0 (st : state hw) : res_val (xwdt_suspend st) = 0.
Proof.
  unfold xwdt_suspend. run_drv.
  destruct (watchdog_active (xilinx_wdt_wdd (st_xdev st))); simpl_drv;
    [| reflexivity].
  destruct (ops_stop (ops (xilinx_wdt_wdd (st_xdev st))) st). reflexivity.
Qed.

Lemma suspend_active_window (st : state hw) :
  watchdog_active (xilinx_wdt_wdd (st_xdev st)) = true ->
  ops (xilinx_wdt_wdd (st_xdev st)) = xilinx_wwdt_ops ->
  res_trace (xwdt_suspend st) = res_trace (xilinx_wwdt_stop st) /\
  res_state (xwdt_suspend st) = res_state (xilinx_wwdt_stop st).
Proof.
  intros Ha Ho. unfold xwdt_suspend. run_drv. rewrite Ha, Ho.
  cbn [ops_stop]. destruct (xilinx_wwdt_stop st) as [v tr s]. simpl_drv.
  rewrite !app_nil_r. split; reflexivity.
Qed.

(** C9, as the code has it: suspend always returns 0. On a device that
    is not active it does nothing. On an active window device it calls
    stop, gate included, and drops what stop returns: when the window
    state reads Open stop is rejected with [-EINVAL] and suspend writes
    no register, the watchdog staying enabled; when it reads Closed
    suspend performs the register sequence of stop and disables the
    clock once. *)
Theorem xwdt_suspend_window (st : state hw) :
  let wdd := xilinx_wdt_wdd (st_xdev st) in
  let r := xwdt_suspend st in
  res_val r = 0 /\
  (watchdog_active wdd = false -> res_trace r = [] /\ res_state r = st) /\
  (watchdog_active wdd = true -> ops wdd = xilinx_wwdt_ops ->
   res_trace r = res_trace (xilinx_wwdt_stop st) /\
   res_state r = res_state (xilinx_wwdt_stop st) /\
   (window_state_of (esr_at st) = Open ->
    res_val (xilinx_wwdt_stop st) = - EINVAL /\
    writes (res_trace r) = [] /\
    clk_disables (res_trace r) = 0%nat) /\
   (window_state_of (esr_at st) = Closed ->
    writes (res_trace r) =
      [EvWrite XWT_WWDT_MWR_MASK XWT_WWDT_MWR_OFFSET;
       EvWrite (not32 XWT_WWDT_ESR_WEN_MASK) XWT_WWDT_ESR_OFFSET] /\
    clk_disables (res_trace r) = 1%nat)).
Proof.
  intros wdd r. subst wdd r. split; [apply suspend_returns_0 |]. split.
  - intros Ha. unfold xwdt_suspend. run_drv. rewrite Ha. simpl_drv.
    destruct st; split; reflexivity.
  - intros Ha Ho. destruct (suspend_active_window st Ha Ho) as [Htr Hst].
    rewrite Htr, Hst. split; [reflexivity |]. split; [reflexivity |].
    split; intros Hw.
    + rewrite (stop_open st Hw). repeat split.
    + rewrite (stop_closed st Hw). cbv zeta. rewrite Ha. split; reflexivity.
Qed.
End SuspendTheorems.

(** ** Attach time *)

(** C7, as the code has it: for a window device and a 32-bit clock
    frequency [pfreq] > 0 the attach-time block stores
    floor((2^32-1)/pfreq) as the maximum timeout, next to the default
    timeout of 10 s and the minimum of 1 s; with [pfreq] = 0 it has no
    guard and divides by zero, no error code being returned. *)
Theorem xwdt_probe_max_timeout (pfreq pre_timeout : Z) (xdev : xwdt_device) :
  (0 < pfreq ->
   exists xdev',
     xwdt_probe_timeouts XWDT_WWDT pfreq pre_timeout xdev = Done xdev' /\
     max_timeout (xilinx_wdt_wdd xdev') = (2 ^ 32 - 1) / pfreq /\
     min_timeout (xilinx_wdt_wdd xdev') = 1 /\
     timeout (xilinx_wdt_wdd xdev') = 10 /\
     pretimeout (xilinx_wdt_wdd xdev') = pre_timeout) /\
  (pfreq = 0 ->
   xwdt_probe_timeouts XWDT_WWDT pfreq pre_timeout xdev = Fault DivideByZero).
Proof.
  split.
  - intros Hf. unfold xwdt_probe_timeouts.
    destruct (Z.eqb_spec pfreq 0) as [E | _]; [lia |].
    eexists. split; [reflexivity |]. cbn. repeat split.
  - intros ->. reflexivity.
Qed.

(** ** The theorems at work on the simulated platform *)

(** C2 as stated fails: with the enable bit and the phase-switch bit both
    set (Enable/Status = 0x101) the gate reads Closed, not Open; stop
    goes through and keepalive writes. *)
Lemma window_state_counterexample :
  ~ (Z.testbit 0x101 0 = true -> Z.testbit 0x101 8 = true ->
     window_state_of 0x101 = Open /\
     res_val (xilinx_wwdt_stop (sim_window 0x101 10 0 1)) = - EINVAL /\
     writes (res_trace (xilinx_wwdt_keepalive (sim_window 0x101 10 0 1))) = []).
Proof.
  intros H. destruct (H eq_refl eq_refl) as [Hopen _].
  vm_compute in Hopen. discriminate Hopen.
Qed.

Example stop_enabled_switch_set :
  res_val (xilinx_wwdt_stop (sim_window 0x101 10 0 1)) = 0 /\
  writes (res_trace (xilinx_wwdt_stop (sim_window 0x101 10 0 1))) =
    [EvWrite 1 0; EvWrite 0xFFFFFFFE 4] /\
  writes (res_trace (xilinx_wwdt_keepalive (sim_window 0x101 10 0 1))) =
    [EvWrite 1 0; EvWrite 0x10001 4; EvWrite 0x10101 4].
Proof. vm_compute. repeat split. Qed.

Example stop_enabled_switch_clear :
  xilinx_wwdt_stop (sim_window 0x001 10 0 1) =
  mk_result (-22) [EvRead 4 1; EvLog LogWarn msg_closed_window]
    (sim_window 0x001 10 0 1).
Proof. vm_compute. reflexivity. Qed.

(** C6 as stated fails: in the Closed phase, with timeout 10 and the
    minimum timeout 1 of the window variant, the new pretimeout 0
    satisfies 0 <= P < timeout and is rejected. *)
Lemma set_pretimeout_zero_counterexample :
  ~ (window_state_of (esr_at (sim_window 0 10 0 0)) = Closed ->
     0 <= 0 < timeout (xilinx_wdt_wdd (st_xdev (sim_window 0 10 0 0))) ->
     res_val (xilinx_wwdt_set_pretimeout 0 (sim_window 0 10 0 0)) = 0).
Proof.
  intros H.
  assert (Hr : res_val (xilinx_wwdt_set_pretimeout 0 (sim_window 0 10 0 0)) = 0).
  { apply H; [reflexivity | cbn; lia]. }
  vm_compute in Hr. discriminate Hr.
Qed.

(** C9 as stated fails: on an active window device whose gate rejects
    stop (enable bit set, phase-switch bit clear) suspend does not
    perform the disable: it writes no register at all. *)
Lemma suspend_gate_counterexample :
  ~ (watchdog_active (xilinx_wdt_wdd (st_xdev (sim_window 0x001 10 0 1))) = true ->
     window_state_of (esr_at (sim_window 0x001 10 0 1)) = Open ->
     writes (res_trace (xwdt_suspend (sim_window 0x001 10 0 1))) =
       [EvWrite XWT_WWDT_MWR_MASK XWT_WWDT_MWR_OFFSET;
        EvWrite (not32 XWT_WWDT_ESR_WEN_MASK) XWT_WWDT_ESR_OFFSET]).
Proof.
  intros H.
  assert (Hw := H eq_refl eq_refl).
  vm_compute in Hw. discriminate Hw.
Qed.

Example suspend_gate_rejects :
  xwdt_suspend (sim_window 0x001 10 0 1) =
  mk_result 0 [EvRead 4 1; EvLog LogWarn msg_closed_window]
    (sim_window 0x001 10 0 1).
Proof. vm_compute. reflexivity. Qed.

Example suspend_gate_accepts :
  writes (res_trace (xwdt_suspend (sim_window 0x101 10 0 1))) =
    [EvWrite 1 0; EvWrite 0xFFFFFFFE 4] /\
  clk_disables (res_trace (xwdt_suspend (sim_window 0x101 10 0 1))) = 1%nat.
Proof. vm_compute. split; reflexivity. Qed.

(** The setters on the simulated device: a value out of range in the
    Closed phase and any value in the Open phase, both [-EINVAL]. *)
Example set_timeout_out_of_range :
  xilinx_wwdt_set_timeout 43 (sim_window 0 10 3 0) =
  mk_result (-22) [EvRead 4 0; EvLog LogWarn msg_timeout_range]
    (sim_window 0 10 3 0).
Proof. vm_compute. reflexivity. Qed.

Example set_timeout_open_phase :
  xilinx_wwdt_set_timeout 5 (sim_window 1 10 3 1) =
  mk_result (-22) [EvRead 4 1; EvLog LogWarn msg_closed_window]
    (sim_window 1 10 3 1).
Proof. vm_compute. reflexivity. Qed.

Example probe_window_100MHz :
  xwdt_probe_timeouts XWDT_WWDT 100000000 0 (sim_xdev 0 0 0) =
  Done (sim_xdev 10 0 0).
Proof. reflexivity. Qed.

Example probe_window_no_clock :
  xwdt_probe_timeouts XWDT_WWDT 0 0 (sim_xdev 0 0 0) = Fault DivideByZero.
Proof. reflexivity. Qed.

(** C1 at 100 MHz, timeout 10 s, pretimeout 2 s, device not yet active. *)
Lemma wwdt_start_window_registers_witness :
  (hw_clk_get_rate (st_hw (sim_window 0 10 2 0)) = 100000000 /\
   timeout (xilinx_wdt_wdd (st_xdev (sim_window 0 10 2 0))) = 10 /\
   pretimeout (xilinx_wdt_wdd (st_xdev (sim_window 0 10 2 0))) = 2 /\
   0 < 100000000 /\ 1 <= 10 <= U32_MAX / 100000000 /\ 0 <= 2 < 10 /\
   (watchdog_active (xilinx_wdt_wdd (st_xdev (sim_window 0 10 2 0))) = true \/
    fst (hw_clk_enable (st_hw (sim_window 0 10 2 0))) = 0)) /\
  (let r := xilinx_wwdt_start (sim_window 0 10 2 0) in
   res_val r = 0 /\
   exists fw sw,
     writes_to XWT_WWDT_FWR_OFFSET (res_trace r) = [fw] /\
     writes_to XWT_WWDT_SWR_OFFSET (res_trace r) = [sw] /\
     (fw + sw) mod 2 ^ 32 = (100000000 * 10) mod 2 ^ 32 /\
     (2 = 0 ->
      fw = 0 /\ sw = 100000000 * 10 /\
      writes_to XWT_WWDT_FCR_OFFSET (res_trace r) = [0]) /\
     (100000000 = 100000000 -> 10 = 10 -> 2 = 2 ->
      fw = 800000000 /\ sw = 200000000)).
Proof.
  assert (Hmax : 1 <= 10 <= U32_MAX / 100000000)
    by (vm_compute; split; discriminate).
  split.
  - repeat split; try reflexivity; try exact (proj1 Hmax); try exact (proj2 Hmax);
      try lia.
    right. reflexivity.
  - apply (wwdt_start_window_registers (sim_window 0 10 2 0) 100000000 10 2);
      try reflexivity; try exact Hmax; try lia.
    right. reflexivity.
Defined.

(** C4 on an active device that reads enabled with the phase-switch bit
    clear. *)
Lemma wwdt_keepalive_open_noop_witness :
  window_state_of (esr_at (sim_window 0x001 10 0 1)) = Open /\
  (let r := xilinx_wwdt_keepalive (sim_window 0x001 10 0 1) in
   res_val r = 0 /\
   res_trace r = [EvRead XWT_WWDT_ESR_OFFSET (esr_at (sim_window 0x001 10 0 1))] /\
   writes (res_trace r) = [] /\
   res_state r = after_gate (sim_window 0x001 10 0 1) /\
   (snd (hw_ioread32 XWT_WWDT_ESR_OFFSET (st_hw (sim_window 0x001 10 0 1))) =
      st_hw (sim_window 0x001 10 0 1) ->
    res_state r = sim_window 0x001 10 0 1)).
Proof.
  split; [reflexivity |].
  apply (wwdt_keepalive_open_noop (sim_window 0x001 10 0 1)). reflexivity.
Defined.

(** C6 on a device that is not enabled, timeout 10 s. *)
Lemma wwdt_set_pretimeout_closed_witness :
  window_state_of (esr_at (sim_window 0 10 0 0)) = Closed /\
  (let wdd := xilinx_wdt_wdd (st_xdev (sim_window 0 10 0 0)) in
   let r := xilinx_wwdt_set_pretimeout 3 (sim_window 0 10 0 0) in
   (min_timeout wdd <= 3 < timeout wdd ->
    res_val r = 0 /\
    pretimeout (xilinx_wdt_wdd (st_xdev (res_state r))) = 3 /\
    timeout (xilinx_wdt_wdd (st_xdev (res_state r))) = timeout wdd) /\
   (3 >= timeout wdd \/ 3 < min_timeout wdd ->
    configuration_error r /\
    writes (res_trace r) = [] /\
    st_xdev (res_state r) = st_xdev (sim_window 0 10 0 0))).
Proof.
  split; [reflexivity |].
  apply (wwdt_set_pretimeout_closed 3 (sim_window 0 10 0 0)). reflexivity.
Defined.

(** C10 on an active device with a pretimeout of 3 s. *)
Lemma wwdt_set_timeout_resets_pretimeout_witness :
  res_val (xilinx_wwdt_set_timeout 5 (sim_window 0 10 3 1)) = 0 /\
  pretimeout
    (xilinx_wdt_wdd
       (st_xdev (res_state (xilinx_wwdt_set_timeout 5 (sim_window 0 10 3 1))))) = 0 /\
  timeout
    (xilinx_wdt_wdd
       (st_xdev (res_state (xilinx_wwdt_set_timeout 5 (sim_window 0 10 3 1))))) = 5.
Proof.
  split; [reflexivity |].
  apply (wwdt_set_timeout_resets_pretimeout 5 (sim_window 0 10 3 1)). reflexivity.
Defined.

(** A stopped timebase: every read of the simulated counter with step 0
    answers its initial value. *)
Lemma sim_plain_stuck (tbr : Z) (k : nat) :
  tbr_read k (st_hw (sim_plain tbr 0)) = tbr_read 0 (st_hw (sim_plain tbr 0)).
Proof.
  unfold tbr_read.
  assert (Hfix : Nat.iter k tbr_next (st_hw (sim_plain tbr 0)) = st_hw (sim_plain tbr 0)).
  { induction k as [| k IH]; [reflexivity |].
    cbn [Nat.iter nat_rect]. change (nat_rect _ _ _ k) with
      (Nat.iter k tbr_next (st_hw (sim_plain tbr 0))).
    rewrite IH. reflexivity. }
  rewrite Hfix. reflexivity.
Qed.

(** C8 on a timebase stopped at 5. *)
Lemma xwdt_selftest_stuck_witness :
  (forall k, tbr_read k (st_hw (sim_plain 5 0)) = tbr_read 0 (st_hw (sim_plain 5 0))) /\
  (let r := xwdt_selftest (sim_plain 5 0) in
   res_val r = XWT_TIMER_FAILED /\
   Z.of_nat (reads (res_trace r)) = 2 + (XWT_MAX_SELFTEST_LOOP_COUNT + 1) /\
   Z.of_nat (reads (res_trace r)) = 65539).
Proof.
  split; [exact (sim_plain_stuck 5) |].
  apply (xwdt_selftest_stuck (sim_plain 5 0)). exact (sim_plain_stuck 5).
Defined.

(** A running timebase passes at once. *)
Example selftest_running :
  res_val (xwdt_selftest (sim_plain 5 1)) = 0.
Proof.
  apply (xwdt_selftest_pass (sim_plain 5 1) 1); [lia | unfold XWT_MAX_SELFTEST_LOOP_COUNT; lia |].
  vm_compute. discriminate.
Qed.

(** * The rest of the driver *)

(** ** Bits of the register values *)

Lemma testbit_BIT (k n : Z) : 0 <= k -> Z.testbit (BIT k) n = (k =? n).
Proof. intros Hk. unfold BIT. rewrite Z.shiftl_1_l. apply Z.pow2_bits_eqb. exact Hk. Qed.

Lemma testbit_wrap32 (x n : Z) : 0 <= n < 32 -> Z.testbit (wrap32 x) n = Z.testbit x n.
Proof. intros Hn. unfold wrap32. apply Z.mod_pow2_bits_low. lia. Qed.

Lemma land_lnot_BIT_u32 (x k : Z) :
  0 <= k -> 0 <= x < 2 ^ 32 -> 0 <= Z.land x (Z.lnot (BIT k)) < 2 ^ 32.
Proof.
  intros Hk Hx.
  assert (H0 : 0 <= Z.land x (Z.lnot (BIT k))) by (apply Z.land_nonneg; left; lia).
  split; [exact H0 |].
  destruct (Z.eq_dec (Z.land x (Z.lnot (BIT k))) 0) as [-> | Hne]; [reflexivity |].
  apply Z.log2_lt_pow2; [lia |].
  assert (Hx0 : x <> 0) by (intros ->; rewrite Z.land_0_l in Hne; congruence).
  assert (Hlx : Z.log2 x < 32) by (apply Z.log2_lt_pow2; lia).
  destruct (Z.lt_ge_cases (Z.log2 (Z.land x (Z.lnot (BIT k)))) 32) as [Hlt | Hge];
    [exact Hlt |].
  exfalso.
  assert (Hb : Z.testbit (Z.land x (Z.lnot (BIT k)))
                 (Z.log2 (Z.land x (Z.lnot (BIT k)))) = true)
    by (apply Z.bit_log2; lia).
  rewrite Z.land_spec, (Z.bits_above_log2 x) in Hb by lia.
  discriminate Hb.
Qed.

Ltac bits :=
  repeat first
    [ rewrite Z.lor_spec | rewrite Z.land_spec | rewrite Z.lnot_spec by lia
    | rewrite testbit_BIT by lia | rewrite testbit_wrap32 by lia ].

Ltac eqb_cases :=
  repeat match goal with
         | |- context [?a =? ?b] => destruct (Z.eqb_spec a b); try lia
         end.

(** ** The plain variant *)

Section PlainTheorems.
Context {hw : Type} {PF : Platform hw}.

(** X1: start of the plain variant enables the clock first. When that
    fails it returns the error of [clk_enable] and touches no register;
    otherwise it returns 0 and writes Control/Status 0 with the
    reset-status, timer-state and enable bits (3, 2, 1) set and every
    other bit as read, then Control/Status 1 with its enable bit. *)
Theorem xilinx_wdt_start_registers (st : state hw) :
  let ret := fst (hw_clk_enable (st_hw st)) in
  let csr := fst (hw_ioread32 XWT_TWCSR0_OFFSET (snd (hw_clk_enable (st_hw st)))) in
  let r := xilinx_wdt_start st in
  st_xdev (res_state r) = st_xdev st /\
  clk_enables (res_trace r) = 1%nat /\
  clk_disables (res_trace r) = 0%nat /\
  (ret <> 0 ->
   res_val r = ret /\ writes (res_trace r) = [] /\ reads (res_trace r) = 0%nat) /\
  (ret = 0 ->
   res_val r = 0 /\
   exists v,
     writes (res_trace r) =
       [EvWrite v XWT_TWCSR0_OFFSET; EvWrite 1 XWT_TWCSR1_OFFSET] /\
     Z.testbit v 1 = true /\ Z.testbit v 2 = true /\ Z.testbit v 3 = true /\
     forall n, 0 <= n -> n <> 1 -> n <> 2 -> n <> 3 ->
               Z.testbit v n = Z.testbit csr n).
Proof.
  intros ret csr r. subst ret csr r.
  unfold xilinx_wdt_start. run_drv.
  destruct (truthy (fst (hw_clk_enable (st_hw st)))) eqn:Hr; simpl_drv.
  - apply negb_true_iff, Z.eqb_neq in Hr.
    split; [reflexivity |]. split; [reflexivity |]. split; [reflexivity |].
    split; [intros _; repeat split | intros E; contradiction].
  - apply negb_false_iff, Z.eqb_eq in Hr.
    split; [reflexivity |]. split; [reflexivity |]. split; [reflexivity |].
    split; [intros Hne; contradiction |].
    intros _. split; [reflexivity |].
    eexists. split; [reflexivity |].
    unfold XWT_CSR0_WRS_MASK, XWT_CSR0_WDS_MASK, XWT_CSR0_EWDT1_MASK.
    repeat split; intros; bits; eqb_cases;
      rewrite ?orb_true_r, ?orb_false_r; reflexivity.
Qed.

(** X2: stop of the plain variant always returns 0: it writes
    Control/Status 0 with enable bit 1 cleared and every other bit as
    read, clears Control/Status 1, and disables the clock exactly once,
    after the registers. *)
Theorem xilinx_wdt_stop_registers (st : state hw) :
  let csr := fst (hw_ioread32 XWT_TWCSR0_OFFSET (st_hw st)) in
  let r := xilinx_wdt_stop st in
  res_val r = 0 /\
  st_xdev (res_state r) = st_xdev st /\
  clk_disables (res_trace r) = 1%nat /\
  clk_enables (res_trace r) = 0%nat /\
  exists v,
    res_trace r =
      [EvSpinLock; EvRead XWT_TWCSR0_OFFSET csr;
       EvWrite v XWT_TWCSR0_OFFSET; EvWrite 0 XWT_TWCSR1_OFFSET;
       EvSpinUnlock; EvClkDisable; EvLog LogDbg msg_stopped] /\
    0 <= v < 2 ^ 32 /\
    Z.testbit v 1 = false /\
    forall n, 0 <= n -> n <> 1 -> Z.testbit v n = Z.testbit csr n.
Proof.
  intros csr r. subst csr r.
  pose proof (hw_ioread32_u32 XWT_TWCSR0_OFFSET (st_hw st)) as Hu.
  unfold xilinx_wdt_stop. run_drv.
  repeat (split; [reflexivity |]).
  eexists. split; [reflexivity |].
  unfold XWT_CSR0_EWDT1_MASK.
  rewrite wrap32_small by (apply land_lnot_BIT_u32; [lia | exact Hu]).
  split; [apply land_lnot_BIT_u32; [lia | exact Hu] |].
  split; intros; bits; eqb_cases;
    rewrite ?andb_true_r, ?andb_false_r; reflexivity.
Qed.

(** X3: keepalive of the plain variant returns 0 and writes
    Control/Status 0 once, with the reset-status and timer-state bits
    (3, 2) set and every other bit, the enable bit among them, as read;
    it writes no other register and calls the clock framework never. *)
Theorem xilinx_wdt_keepalive_registers (st : state hw) :
  let csr := fst (hw_ioread32 XWT_TWCSR0_OFFSET (st_hw st)) in
  let r := xilinx_wdt_keepalive st in
  res_val r = 0 /\
  st_xdev (res_state r) = st_xdev st /\
  clk_enables (res_trace r) = 0%nat /\
  clk_disables (res_trace r) = 0%nat /\
  exists v,
    writes (res_trace r) = [EvWrite v XWT_TWCSR0_OFFSET] /\
    Z.testbit v 2 = true /\ Z.testbit v 3 = true /\
    forall n, 0 <= n -> n <> 2 -> n <> 3 -> Z.testbit v n = Z.testbit csr n.
Proof.
  intros csr r. subst csr r.
  unfold xilinx_wdt_keepalive. run_drv.
  repeat (split; [reflexivity |]).
  eexists. split; [reflexivity |].
  unfold XWT_CSR0_WRS_MASK, XWT_CSR0_WDS_MASK.
  repeat split; intros; bits; eqb_cases;
    rewrite ?orb_true_r, ?orb_false_r; reflexivity.
Qed.
End PlainTheorems.

(** ** Start of the window variant *)

Lemma testbit_SBC_MASK (n : Z) :
  0 <= n -> Z.testbit XWT_WWDT_SBC_MASK n = (8 <=? n) && (n <? 16).
Proof.
  intros Hn. change XWT_WWDT_SBC_MASK with (Z.shiftl (Z.ones 8) 8).
  rewrite Z.shiftl_spec by lia.
  destruct (Z.leb_spec 8 n) as [Hle | Hlt].
  - rewrite Z.testbit_ones_nonneg by lia.
    destruct (Z.ltb_spec (n - 8) 8), (Z.ltb_spec n 16); try lia; reflexivity.
  - rewrite Z.testbit_neg_r by lia. reflexivity.
Qed.

Lemma testbit_BSS_MASK (n : Z) :
  0 <= n -> Z.testbit XWT_WWDT_BSS_MASK n = (6 <=? n) && (n <? 8).
Proof.
  intros Hn. change XWT_WWDT_BSS_MASK with (Z.shiftl (Z.ones 2) 6).
  rewrite Z.shiftl_spec by lia.
  destruct (Z.leb_spec 6 n) as [Hle | Hlt].
  - rewrite Z.testbit_ones_nonneg by lia.
    destruct (Z.ltb_spec (n - 6) 2), (Z.ltb_spec n 8); try lia; reflexivity.
  - rewrite Z.testbit_neg_r by lia. reflexivity.
Qed.

Section StartOutcomes.
Context {hw : Type} {PF : Platform hw}.

(** The register transaction of start, step by step, on the platform
    state [h]. *)
Lemma start_program_trace (time_out pre_timeout : Z) (xdev : xwdt_device) (h : hw) :
  let h1 := hw_iowrite32 XWT_WWDT_MWR_MASK XWT_WWDT_MWR_OFFSET h in
  let h2 := hw_iowrite32 (not32 XWT_WWDT_ESR_WEN_MASK) XWT_WWDT_ESR_OFFSET h1 in
  let fw := if truthy pre_timeout
            then wrap32 (wrap64 (time_out - pre_timeout)) else wrap32 pre_timeout in
  let sw := if truthy pre_timeout then wrap32 pre_timeout else wrap32 time_out in
  let h3 := hw_iowrite32 fw XWT_WWDT_FWR_OFFSET h2 in
  let h4 := hw_iowrite32 sw XWT_WWDT_SWR_OFFSET h3 in
  let rb := fst (hw_ioread32 XWT_WWDT_SWR_OFFSET h4) in
  let fcr := if truthy pre_timeout
             then Z.lor (Z.land (Z.shiftr rb XWT_WWDT_SBC_SHIFT) XWT_WWDT_SBC_MASK)
                        XWT_WWDT_BSS_MASK
             else 0 in
  let h5 := if truthy pre_timeout then snd (hw_ioread32 XWT_WWDT_SWR_OFFSET h4) else h4 in
  let h6 := hw_iowrite32 fcr XWT_WWDT_FCR_OFFSET h5 in
  let esr := fst (hw_ioread32 XWT_WWDT_ESR_OFFSET h6) in
  let h7 := snd (hw_ioread32 XWT_WWDT_ESR_OFFSET h6) in
  let h8 := hw_iowrite32 (Z.lor esr XWT_WWDT_ESR_WEN_MASK) XWT_WWDT_ESR_OFFSET h7 in
  xilinx_wwdt_start_program time_out pre_timeout (mk_state xdev h) =
  mk_result 0
    ([EvSpinLock;
      EvWrite XWT_WWDT_MWR_MASK XWT_WWDT_MWR_OFFSET;
      EvWrite (not32 XWT_WWDT_ESR_WEN_MASK) XWT_WWDT_ESR_OFFSET;
      EvWrite fw XWT_WWDT_FWR_OFFSET;
      EvWrite sw XWT_WWDT_SWR_OFFSET]
     ++ (if truthy pre_timeout then [EvRead XWT_WWDT_SWR_OFFSET rb] else [])
     ++ [EvWrite fcr XWT_WWDT_FCR_OFFSET;
         EvRead XWT_WWDT_ESR_OFFSET esr;
         EvWrite (Z.lor esr XWT_WWDT_ESR_WEN_MASK) XWT_WWDT_ESR_OFFSET;
         EvSpinUnlock;
         EvLog LogDbg msg_started])
    (mk_state xdev h8).
Proof.
  cbv zeta. unfold xilinx_wwdt_start_program. run_drv.
  destruct (truthy pre_timeout); reflexivity.
Qed.

(** How start of the window variant ends, case by case. *)
Lemma start_cases (st : state hw) :
  let rate := hw_clk_get_rate (st_hw st) in
  let wdd := xilinx_wdt_wdd (st_xdev st) in
  let en := hw_clk_enable (st_hw st) in
  let pre := wrap64 (rate * pretimeout wdd) in
  let tot := wrap64 (rate * timeout wdd) in
  xilinx_wwdt_start st =
  if rate =? 0 then mk_result (- EINVAL) [] st
  else if watchdog_active wdd then
    xilinx_wwdt_start_program tot pre st
  else if fst en =? 0 then
    let p := xilinx_wwdt_start_program tot pre (mk_state (st_xdev st) (snd en)) in
    mk_result (res_val p) (EvClkEnable (fst en) :: res_trace p) (res_state p)
  else
    mk_result (fst en) [EvClkEnable (fst en); EvLog LogErr msg_clk_failed]
      (mk_state (st_xdev st) (snd en)).
Proof.
  cbv zeta. unfold xilinx_wwdt_start. run_drv. unfold truthy.
  destruct (hw_clk_get_rate (st_hw st) =? 0); simpl_drv; [reflexivity |].
  destruct (watchdog_active (xilinx_wdt_wdd (st_xdev st))); simpl_drv.
  - destruct (xilinx_wwdt_start_program _ _ st). reflexivity.
  - destruct (fst (hw_clk_enable (st_hw st)) =? 0); simpl_drv; [| reflexivity].
    destruct (xilinx_wwdt_start_program _ _ _). reflexivity.
Qed.

(** X4: start of the window variant succeeds or leaves the registers
    alone. It returns 0 exactly when the clock rate is not 0 and the
    device is already active or [clk_enable] answers 0; when it fails it
    neither reads nor writes a register and the device structure is as
    it was. With a rate of 0 it returns [-EINVAL] before anything else,
    the clock not even enabled. It never disables the clock and enables
    it at most once, never on a device that is already active. *)
Theorem xilinx_wwdt_start_all_or_nothing (st : state hw) :
  let rate := hw_clk_get_rate (st_hw st) in
  let active := watchdog_active (xilinx_wdt_wdd (st_xdev st)) in
  let r := xilinx_wwdt_start st in
  (res_val r = 0 <->
   rate <> 0 /\ (active = true \/ fst (hw_clk_enable (st_hw st)) = 0)) /\
  (res_val r <> 0 ->
   writes (res_trace r) = [] /\ reads (res_trace r) = 0%nat /\
   st_xdev (res_state r) = st_xdev st) /\
  (rate = 0 -> r = mk_result (- EINVAL) [] st) /\
  clk_disables (res_trace r) = 0%nat /\
  (clk_enables (res_trace r) <= 1)%nat /\
  (active = true -> clk_enables (res_trace r) = 0%nat).
Proof.
  intros rate active r. subst rate active r.
  rewrite (start_cases st). cbv zeta.
  destruct st as [xdev h]. cbn [st_hw st_xdev].
  destruct (Z.eqb_spec (hw_clk_get_rate h) 0) as [Hr | Hr].
  { cbn. repeat split; try (intros; lia); try discriminate; try tauto. }
  destruct (watchdog_active (xilinx_wdt_wdd xdev)) eqn:Ha.
  { rewrite start_program_trace. cbv zeta. simpl_drv.
    destruct (truthy (wrap64 (hw_clk_get_rate h * pretimeout (xilinx_wdt_wdd xdev))));
      cbn; repeat split; try (intros; lia); try congruence; try tauto; auto. }
  destruct (Z.eqb_spec (fst (hw_clk_enable h)) 0) as [He | He].
  - rewrite start_program_trace. cbv zeta. simpl_drv.
    destruct (truthy (wrap64 (hw_clk_get_rate h * pretimeout (xilinx_wdt_wdd xdev))));
      cbn; repeat split; try (intros; lia); try congruence; try tauto; auto.
  - simpl_drv. cbn. repeat split; try (intros; lia); try congruence; auto.
    all: try (intros [_ [E | E]]; [discriminate E | contradiction]).
    all: try (intros E; contradiction).
Qed.
End StartOutcomes.

Section StartSequence.
Context {hw : Type} {PF : Platform hw}.

Lemma windows_add_up (tot pre T f : Z) :
  tot = wrap64 (f * T) ->
  ((if truthy pre then wrap32 (wrap64 (tot - pre)) else wrap32 pre)
   + (if truthy pre then wrap32 pre else wrap32 tot)) mod 2 ^ 32
  = (f * T) mod 2 ^ 32.
Proof.
  intros ->. destruct (truthy pre) eqn:Hp.
  - rewrite wrap32_wrap64. unfold wrap32.
    rewrite <- Z.add_mod by lia.
    replace (wrap64 (f * T) - pre + pre) with (wrap64 (f * T)) by lia.
    apply wrap32_wrap64.
  - apply negb_false_iff, Z.eqb_eq in Hp. subst pre.
    change (wrap32 0) with 0. rewrite Z.add_0_l.
    unfold wrap32 at 1. rewrite Z.mod_mod by lia. apply wrap32_wrap64.
Qed.

(** X5: a start of the window variant that succeeds writes six
    registers, in this order: the master write control to unlock, the
    Enable/Status register with the enable bit clear, First-Window,
    Second-Window, Function-Control, and last the Enable/Status register
    with the enable bit set and every other bit as just read back.
    Whatever timeout and pretimeout are stored, in range or not, the two
    window values add up to rate * timeout modulo 2^32. *)
Theorem xilinx_wwdt_start_sequence (st : state hw) :
  res_val (xilinx_wwdt_start st) = 0 ->
  let r := xilinx_wwdt_start st in
  exists fw sw fcr esr,
    writes (res_trace r) =
      [EvWrite 1 XWT_WWDT_MWR_OFFSET;
       EvWrite 0xFFFFFFFE XWT_WWDT_ESR_OFFSET;
       EvWrite fw XWT_WWDT_FWR_OFFSET;
       EvWrite sw XWT_WWDT_SWR_OFFSET;
       EvWrite fcr XWT_WWDT_FCR_OFFSET;
       EvWrite (Z.lor esr 1) XWT_WWDT_ESR_OFFSET] /\
    In (EvRead XWT_WWDT_ESR_OFFSET esr) (res_trace r) /\
    Z.testbit (Z.lor esr 1) 0 = true /\
    (forall n, 0 < n -> Z.testbit (Z.lor esr 1) n = Z.testbit esr n) /\
    (fw + sw) mod 2 ^ 32 =
      (hw_clk_get_rate (st_hw st) * timeout (xilinx_wdt_wdd (st_xdev st))) mod 2 ^ 32.
Proof.
  intros Hok r. subst r. revert Hok.
  rewrite (start_cases st). cbv zeta.
  destruct st as [xdev h]. cbn [st_hw st_xdev].
  destruct (Z.eqb_spec (hw_clk_get_rate h) 0) as [Hr | Hr];
    [intros Hok; discriminate Hok |].
  assert (Hbits : forall esr,
             Z.testbit (Z.lor esr 1) 0 = true /\
             forall n, 0 < n -> Z.testbit (Z.lor esr 1) n = Z.testbit esr n).
  { intros esr. split.
    - rewrite Z.lor_spec. apply orb_true_r.
    - intros n Hn. rewrite Z.lor_spec.
      change 1 with (BIT 0) at 1. rewrite testbit_BIT by lia.
      destruct (Z.eqb_spec 0 n); [lia | apply orb_false_r]. }
  assert (Hprog : forall h0,
    let p := xilinx_wwdt_start_program
               (wrap64 (hw_clk_get_rate h * timeout (xilinx_wdt_wdd xdev)))
               (wrap64 (hw_clk_get_rate h * pretimeout (xilinx_wdt_wdd xdev)))
               (mk_state xdev h0) in
    exists fw sw fcr esr,
      writes (res_trace p) =
        [EvWrite 1 XWT_WWDT_MWR_OFFSET;
         EvWrite 0xFFFFFFFE XWT_WWDT_ESR_OFFSET;
         EvWrite fw XWT_WWDT_FWR_OFFSET;
         EvWrite sw XWT_WWDT_SWR_OFFSET;
         EvWrite fcr XWT_WWDT_FCR_OFFSET;
         EvWrite (Z.lor esr 1) XWT_WWDT_ESR_OFFSET] /\
      In (EvRead XWT_WWDT_ESR_OFFSET esr) (res_trace p) /\
      Z.testbit (Z.lor esr 1) 0 = true /\
      (forall n, 0 < n -> Z.testbit (Z.lor esr 1) n = Z.testbit esr n) /\
      (fw + sw) mod 2 ^ 32 =
        (hw_clk_get_rate h * timeout (xilinx_wdt_wdd xdev)) mod 2 ^ 32).
  { intros h0 p. subst p. rewrite start_program_trace. cbv zeta. simpl_drv.
    pose proof (windows_add_up
                  (wrap64 (hw_clk_get_rate h * timeout (xilinx_wdt_wdd xdev)))
                  (wrap64 (hw_clk_get_rate h * pretimeout (xilinx_wdt_wdd xdev)))
                  (timeout (xilinx_wdt_wdd xdev)) (hw_clk_get_rate h) eq_refl) as Hsum.
    destruct (truthy (wrap64 (hw_clk_get_rate h * pretimeout (xilinx_wdt_wdd xdev))));
      (do 4 eexists; split; [reflexivity |]; split; [cbn; auto 12 |];
       split; [apply Hbits |]; split; [apply Hbits | exact Hsum]). }
  cbv zeta in Hprog.
  destruct (watchdog_active (xilinx_wdt_wdd xdev)).
  - intros _. apply Hprog.
  - destruct (Z.eqb_spec (fst (hw_clk_enable h)) 0) as [He | He].
    + intros _. simpl_drv.
      destruct (Hprog (snd (hw_clk_enable h))) as (fw & sw & fcr & esr & Hw & Hin & H1 & H2 & H3).
      exists fw, sw, fcr, esr. cbn [writes filter is_write].
      repeat split; try assumption. right. exact Hin.
    + simpl_drv. intros Hok. contradiction.
Qed.

(** X6: when the pretimeout cycle count is not 0, start derives the
    Function-Control value from the Second-Window register it has just
    written and reads back: bits 7 and 6 are set, bits 15..8 are bits
    31..24 of the value read back, and every other bit is clear. *)
Theorem xilinx_wwdt_start_function_control (st : state hw) :
  res_val (xilinx_wwdt_start st) = 0 ->
  truthy (wrap64 (hw_clk_get_rate (st_hw st)
                  * pretimeout (xilinx_wdt_wdd (st_xdev st)))) = true ->
  let r := xilinx_wwdt_start st in
  exists rb fcr,
    In (EvRead XWT_WWDT_SWR_OFFSET rb) (res_trace r) /\
    writes_to XWT_WWDT_FCR_OFFSET (res_trace r) = [fcr] /\
    Z.testbit fcr 6 = true /\ Z.testbit fcr 7 = true /\
    (forall n, 8 <= n < 16 -> Z.testbit fcr n = Z.testbit rb (n + 16)) /\
    (forall n, 0 <= n < 6 \/ 16 <= n -> Z.testbit fcr n = false).
Proof.
  intros Hok Hpre r. subst r. revert Hok.
  rewrite (start_cases st). cbv zeta.
  destruct st as [xdev h]. cbn [st_hw st_xdev] in *.
  destruct (Z.eqb_spec (hw_clk_get_rate h) 0) as [Hr | Hr];
    [intros Hok; discriminate Hok |].
  assert (Hfcr : forall rb,
    let fcr := Z.lor (Z.land (Z.shiftr rb XWT_WWDT_SBC_SHIFT) XWT_WWDT_SBC_MASK)
                     XWT_WWDT_BSS_MASK in
    Z.testbit fcr 6 = true /\ Z.testbit fcr 7 = true /\
    (forall n, 8 <= n < 16 -> Z.testbit fcr n = Z.testbit rb (n + 16)) /\
    (forall n, 0 <= n < 6 \/ 16 <= n -> Z.testbit fcr n = false)).
  { intros rb fcr. subst fcr.
    assert (Hbit : forall n, 0 <= n ->
      Z.testbit (Z.lor (Z.land (Z.shiftr rb XWT_WWDT_SBC_SHIFT) XWT_WWDT_SBC_MASK)
                       XWT_WWDT_BSS_MASK) n =
      Z.testbit rb (n + 16) && ((8 <=? n) && (n <? 16)) || ((6 <=? n) && (n <? 8))).
    { intros n Hn.
      rewrite Z.lor_spec, Z.land_spec, Z.shiftr_spec, testbit_SBC_MASK,
        testbit_BSS_MASK by lia.
      reflexivity. }
    repeat split.
    - rewrite Hbit by lia. apply orb_true_r.
    - rewrite Hbit by lia. apply orb_true_r.
    - intros n Hn. rewrite Hbit by lia.
      destruct (Z.leb_spec 8 n), (Z.ltb_spec n 16), (Z.leb_spec 6 n), (Z.ltb_spec n 8);
        try lia. cbn. rewrite andb_true_r, orb_false_r. reflexivity.
    - intros n Hn. rewrite Hbit by lia.
      destruct (Z.leb_spec 8 n), (Z.ltb_spec n 16), (Z.leb_spec 6 n), (Z.ltb_spec n 8);
        try lia; cbn; rewrite ?andb_false_r; reflexivity. }
  assert (Hprog : forall h0,
    let p := xilinx_wwdt_start_program
               (wrap64 (hw_clk_get_rate h * timeout (xilinx_wdt_wdd xdev)))
               (wrap64 (hw_clk_get_rate h * pretimeout (xilinx_wdt_wdd xdev)))
               (mk_state xdev h0) in
    exists rb fcr,
      In (EvRead XWT_WWDT_SWR_OFFSET rb) (res_trace p) /\
      writes_to XWT_WWDT_FCR_OFFSET (res_trace p) = [fcr] /\
      Z.testbit fcr 6 = true /\ Z.testbit fcr 7 = true /\
      (forall n, 8 <= n < 16 -> Z.testbit fcr n = Z.testbit rb (n + 16)) /\
      (forall n, 0 <= n < 6 \/ 16 <= n -> Z.testbit fcr n = false)).
  { intros h0 p. subst p. rewrite start_program_trace. cbv zeta. simpl_drv.
    rewrite Hpre. do 2 eexists.
    split; [cbn; auto 12 |]. split; [reflexivity |]. apply Hfcr. }
  cbv zeta in Hprog.
  destruct (watchdog_active (xilinx_wdt_wdd xdev)).
  - intros _. apply Hprog.
  - destruct (Z.eqb_spec (fst (hw_clk_enable h)) 0) as [He | He].
    + intros _. simpl_drv.
      destruct (Hprog (snd (hw_clk_enable h))) as (rb & fcr & Hin & Hw & Hb).
      exists rb, fcr. cbn [writes_to].
      split; [right; exact Hin |]. split; [exact Hw | exact Hb].
    + simpl_drv. intros Hok. contradiction.
Qed.
End StartSequence.

(** ** Keepalive in the Closed phase *)

Section KeepaliveClosed.
Context {hw : Type} {PF : Platform hw}.

(** X7: keepalive of the window variant, called while the window state
    reads Closed, returns 0 after unlocking the registers and writing
    the Enable/Status register twice, each time from a fresh read: first
    with the interrupt bit (16) set and the phase-switch bit (8) clear,
    then with the phase-switch bit set. In both writes every other bit,
    the enable bit among them, is as read; the clock is not touched. *)
Theorem xilinx_wwdt_keepalive_closed (st : state hw) :
  window_state_of (esr_at st) = Closed ->
  let r := xilinx_wwdt_keepalive st in
  res_val r = 0 /\
  st_xdev (res_state r) = st_xdev st /\
  clk_enables (res_trace r) = 0%nat /\
  clk_disables (res_trace r) = 0%nat /\
  exists e1 e2 v1 v2,
    res_trace r =
      [EvRead XWT_WWDT_ESR_OFFSET (esr_at st); EvSpinLock;
       EvWrite 1 XWT_WWDT_MWR_OFFSET;
       EvRead XWT_WWDT_ESR_OFFSET e1; EvWrite v1 XWT_WWDT_ESR_OFFSET;
       EvRead XWT_WWDT_ESR_OFFSET e2; EvWrite v2 XWT_WWDT_ESR_OFFSET;
       EvSpinUnlock] /\
    Z.testbit v1 16 = true /\ Z.testbit v1 8 = false /\
    (forall n, 0 <= n < 32 -> n <> 16 -> n <> 8 ->
               Z.testbit v1 n = Z.testbit e1 n) /\
    Z.testbit v2 8 = true /\
    (forall n, 0 <= n -> n <> 8 -> Z.testbit v2 n = Z.testbit e2 n).
Proof.
  intros Hc r. subst r. apply window_closed_gate in Hc.
  unfold xilinx_wwdt_keepalive. run_drv. fold (esr_at st). rewrite Hc.
  simpl_drv.
  repeat (split; [reflexivity |]).
  do 4 eexists. split; [reflexivity |].
  unfold XWT_WWDT_ESR_WINT_MASK, XWT_WWDT_ESR_WSW_MASK.
  repeat split; intros; bits; eqb_cases;
    rewrite ?orb_true_r, ?orb_false_r, ?andb_true_r, ?andb_false_r; reflexivity.
Qed.
End KeepaliveClosed.

(** ** The setters beyond the gate *)

Section SetterOutcomes.
Context {hw : Type} {PF : Platform hw}.

Lemma set_timeout_accepted_result (new_time : Z) (st : state hw) :
  window_state_of (esr_at st) = Closed ->
  (new_time <? min_timeout (xilinx_wdt_wdd (st_xdev st)))
  || (new_time >? max_timeout (xilinx_wdt_wdd (st_xdev st))) = false ->
  let wdd := xilinx_wdt_wdd (st_xdev st) in
  let st1 := mk_state
               (with_wdd (st_xdev st) (with_pretimeout (with_timeout wdd new_time) 0))
               (st_hw (after_gate st)) in
  xilinx_wwdt_set_timeout new_time st =
  if watchdog_active wdd then
    let s := xilinx_wwdt_start st1 in
    mk_result 0
      (EvRead XWT_WWDT_ESR_OFFSET (esr_at st)
       :: res_trace s
          ++ (if truthy (wrap32 (res_val s)) then [EvLog LogDbg msg_start_failed] else []))
      (res_state s)
  else mk_result 0 [EvRead XWT_WWDT_ESR_OFFSET (esr_at st)] st1.
Proof.
  intros Hc Hr wdd st1. subst wdd. apply window_closed_gate in Hc.
  unfold xilinx_wwdt_set_timeout. run_drv. fold (esr_at st). rewrite Hc.
  simpl_drv. rewrite Hr. simpl_drv.
  destruct (watchdog_active (xilinx_wdt_wdd (st_xdev st))) eqn:Ha;
    unfold watchdog_active in *; simpl_drv; rewrite ?Ha; simpl_drv;
    [| reflexivity].
  match goal with
  | |- context [xilinx_wwdt_start ?s] =>
      change s with st1; destruct (xilinx_wwdt_start st1) as [v tr s']
  end.
  simpl_drv. destruct (truthy (wrap32 v)); simpl_drv; rewrite ?app_nil_r; reflexivity.
Qed.

Lemma set_pretimeout_accepted_result (new_pretimeout : Z) (st : state hw) :
  window_state_of (esr_at st) = Closed ->
  (new_pretimeout <? min_timeout (xilinx_wdt_wdd (st_xdev st)))
  || (new_pretimeout >=? timeout (xilinx_wdt_wdd (st_xdev st))) = false ->
  let wdd := xilinx_wdt_wdd (st_xdev st) in
  let st1 := mk_state
               (with_wdd (st_xdev st) (with_pretimeout wdd new_pretimeout))
               (st_hw (after_gate st)) in
  xilinx_wwdt_set_pretimeout new_pretimeout st =
  if watchdog_active wdd then
    let s := xilinx_wwdt_start st1 in
    mk_result 0
      (EvRead XWT_WWDT_ESR_OFFSET (esr_at st)
       :: res_trace s
          ++ (if truthy (wrap32 (res_val s)) then [EvLog LogDbg msg_start_failed] else []))
      (res_state s)
  else mk_result 0 [EvRead XWT_WWDT_ESR_OFFSET (esr_at st)] st1.
Proof.
  intros Hc Hr wdd st1. subst wdd. apply window_closed_gate in Hc.
  unfold xilinx_wwdt_set_pretimeout. run_drv. fold (esr_at st). rewrite Hc.
  simpl_drv. rewrite Hr. simpl_drv.
  destruct (watchdog_active (xilinx_wdt_wdd (st_xdev st))) eqn:Ha;
    unfold watchdog_active in *; simpl_drv; rewrite ?Ha; simpl_drv;
    [| reflexivity].
  match goal with
  | |- context [xilinx_wwdt_start ?s] =>
      change s with st1; destruct (xilinx_wwdt_start st1) as [v tr s']
  end.
  simpl_drv. destruct (truthy (wrap32 v)); simpl_drv; rewrite ?app_nil_r; reflexivity.
Qed.

(** X8: in the Closed phase set_timeout accepts exactly the values from
    the minimum to the maximum timeout, both included: it returns 0 for
    these and [-EINVAL] for every other value. *)
Theorem xilinx_wwdt_set_timeout_range (new_time : Z) (st : state hw) :
  window_state_of (esr_at st) = Closed ->
  let wdd := xilinx_wdt_wdd (st_xdev st) in
  let r := xilinx_wwdt_set_timeout new_time st in
  (res_val r = 0 <-> min_timeout wdd <= new_time <= max_timeout wdd) /\
  (res_val r = - EINVAL <-> new_time < min_timeout wdd \/ max_timeout wdd < new_time).
Proof.
  intros Hc wdd r. subst wdd r.
  destruct ((new_time <? min_timeout (xilinx_wdt_wdd (st_xdev st)))
            || (new_time >? max_timeout (xilinx_wdt_wdd (st_xdev st)))) eqn:Hr.
  - rewrite (set_timeout_closed_rejected _ _ Hc Hr). simpl_drv.
    apply orb_true_iff in Hr. rewrite Z.ltb_lt, Z.gtb_ltb, Z.ltb_lt in Hr.
    split; split; intros H; try discriminate H; try lia; reflexivity.
  - destruct (set_timeout_closed_accepted _ _ Hc Hr) as (H0 & _).
    rewrite H0.
    apply orb_false_iff in Hr. rewrite Z.ltb_ge, Z.gtb_ltb, Z.ltb_ge in Hr.
    split; split; intros H; try discriminate H; try lia; reflexivity.
Qed.

(** X9: a setter of the window variant that fails has done nothing but
    the gate's read of the Enable/Status register: no register written,
    no clock call, the state that of the read. *)
Theorem xilinx_wwdt_setters_fail_clean (new_value : Z) (st : state hw) :
  (res_val (xilinx_wwdt_set_timeout new_value st) <> 0 ->
   writes (res_trace (xilinx_wwdt_set_timeout new_value st)) = [] /\
   reads (res_trace (xilinx_wwdt_set_timeout new_value st)) = 1%nat /\
   clk_enables (res_trace (xilinx_wwdt_set_timeout new_value st)) = 0%nat /\
   res_state (xilinx_wwdt_set_timeout new_value st) = after_gate st) /\
  (res_val (xilinx_wwdt_set_pretimeout new_value st) <> 0 ->
   writes (res_trace (xilinx_wwdt_set_pretimeout new_value st)) = [] /\
   reads (res_trace (xilinx_wwdt_set_pretimeout new_value st)) = 1%nat /\
   clk_enables (res_trace (xilinx_wwdt_set_pretimeout new_value st)) = 0%nat /\
   res_state (xilinx_wwdt_set_pretimeout new_value st) = after_gate st).
Proof.
  destruct (window_state_of (esr_at st)) eqn:Hw.
  - split.
    + destruct ((new_value <? min_timeout (xilinx_wdt_wdd (st_xdev st)))
                || (new_value >? max_timeout (xilinx_wdt_wdd (st_xdev st)))) eqn:Hr.
      * rewrite (set_timeout_closed_rejected _ _ Hw Hr). intros _. repeat split.
      * destruct (set_timeout_closed_accepted _ _ Hw Hr) as (H0 & _).
        intros Hne. contradiction.
    + destruct ((new_value <? min_timeout (xilinx_wdt_wdd (st_xdev st)))
                || (new_value >=? timeout (xilinx_wdt_wdd (st_xdev st)))) eqn:Hr.
      * rewrite (set_pretimeout_closed_rejected _ _ Hw Hr). intros _. repeat split.
      * destruct (set_pretimeout_closed_accepted _ _ Hw Hr) as (H0 & _).
        intros Hne. contradiction.
  - rewrite (set_timeout_open _ _ Hw), (set_pretimeout_open _ _ Hw).
    split; intros _; repeat split.
Qed.

(** X10: on a device that is not active, an accepted set_timeout or
    set_pretimeout only stores the new value: apart from the gate's read
    it touches neither a register nor the clock. *)
Theorem xilinx_wwdt_setters_inactive_store_only (new_value : Z) (st : state hw) :
  window_state_of (esr_at st) = Closed ->
  watchdog_active (xilinx_wdt_wdd (st_xdev st)) = false ->
  let wdd := xilinx_wdt_wdd (st_xdev st) in
  (min_timeout wdd <= new_value <= max_timeout wdd ->
   xilinx_wwdt_set_timeout new_value st =
   mk_result 0 [EvRead XWT_WWDT_ESR_OFFSET (esr_at st)]
     (mk_state (with_wdd (st_xdev st) (with_pretimeout (with_timeout wdd new_value) 0))
        (st_hw (after_gate st)))) /\
  (min_timeout wdd <= new_value < timeout wdd ->
   xilinx_wwdt_set_pretimeout new_value st =
   mk_result 0 [EvRead XWT_WWDT_ESR_OFFSET (esr_at st)]
     (mk_state (with_wdd (st_xdev st) (with_pretimeout wdd new_value))
        (st_hw (after_gate st)))).
Proof.
  intros Hc Ha wdd. subst wdd. split; intros Hb.
  - rewrite set_timeout_accepted_result; [cbv zeta; rewrite Ha; reflexivity | exact Hc |].
    apply orb_false_iff. rewrite Z.ltb_ge, Z.gtb_ltb, Z.ltb_ge. lia.
  - rewrite set_pretimeout_accepted_result; [cbv zeta; rewrite Ha; reflexivity | exact Hc |].
    apply orb_false_iff. rewrite Z.ltb_ge, Z.geb_leb, Z.leb_gt. lia.
Qed.
End SetterOutcomes.

Section SetterRearm.
Context {hw : Type} {PF : Platform hw}.

Lemma range_accepts (v lo hi : Z) :
  lo <= v <= hi -> (v <? lo) || (v >? hi) = false.
Proof. intros H. apply orb_false_iff. rewrite Z.ltb_ge, Z.gtb_ltb, Z.ltb_ge. lia. Qed.

Lemma below_accepts (v lo hi : Z) :
  lo <= v < hi -> (v <? lo) || (v >=? hi) = false.
Proof. intros H. apply orb_false_iff. rewrite Z.ltb_ge, Z.geb_leb, Z.leb_gt. lia. Qed.

(** X11: an accepted set_timeout on an active device re-arms the
    hardware with the new value and no pretimeout: with the clock at
    [f] > 0 Hz and f * new_time below 2^32 it returns 0, writes 0 to
    First-Window, f * new_time to Second-Window and 0 to
    Function-Control, and does not enable the clock a second time. *)
Theorem xilinx_wwdt_set_timeout_rearms (new_time f : Z) (st : state hw) :
  window_state_of (esr_at st) = Closed ->
  watchdog_active (xilinx_wdt_wdd (st_xdev st)) = true ->
  min_timeout (xilinx_wdt_wdd (st_xdev st)) <= new_time
    <= max_timeout (xilinx_wdt_wdd (st_xdev st)) ->
  hw_clk_get_rate (st_hw (after_gate st)) = f ->
  0 < f -> 0 <= new_time -> f * new_time < 2 ^ 32 ->
  let r := xilinx_wwdt_set_timeout new_time st in
  res_val r = 0 /\
  writes_to XWT_WWDT_FWR_OFFSET (res_trace r) = [0] /\
  writes_to XWT_WWDT_SWR_OFFSET (res_trace r) = [f * new_time] /\
  writes_to XWT_WWDT_FCR_OFFSET (res_trace r) = [0] /\
  clk_enables (res_trace r) = 0%nat /\
  ~ In (EvLog LogDbg msg_start_failed) (res_trace r).
Proof.
  intros Hc Ha Hb Hrate Hf Hn Hfit r. subst r.
  rewrite (set_timeout_accepted_result _ _ Hc (range_accepts _ _ _ Hb)).
  cbv zeta. rewrite Ha. rewrite start_cases. cbv zeta.
  cbn [st_hw st_xdev xilinx_wdt_wdd with_wdd with_pretimeout with_timeout
       timeout pretimeout status]. rewrite Hrate.
  destruct (Z.eqb_spec f 0) as [E | _]; [lia |].
  change (watchdog_active _) with (watchdog_active (xilinx_wdt_wdd (st_xdev st))).
  rewrite Ha. rewrite start_program_trace. cbv zeta. simpl_drv.
  rewrite Z.mul_0_r. change (truthy (wrap64 0)) with false. cbv iota.
  rewrite (wrap64_small (f * new_time)) by nia.
  rewrite (wrap32_small (f * new_time)) by nia.
  cbn. repeat split. intros H.
  repeat (destruct H as [H | H]; [discriminate H |]). exact H.
Qed.

(** X12: an accepted set_pretimeout on an active device re-arms the
    hardware with the split timeout: with the clock at [f] > 0 Hz,
    a new pretimeout P > 0 and f * timeout below 2^32 it returns 0 and
    writes f * (timeout - P) to First-Window and f * P to
    Second-Window, without enabling the clock a second time. *)
Theorem xilinx_wwdt_set_pretimeout_rearms (new_pretimeout f : Z) (st : state hw) :
  window_state_of (esr_at st) = Closed ->
  watchdog_active (xilinx_wdt_wdd (st_xdev st)) = true ->
  min_timeout (xilinx_wdt_wdd (st_xdev st)) <= new_pretimeout
    < timeout (xilinx_wdt_wdd (st_xdev st)) ->
  hw_clk_get_rate (st_hw (after_gate st)) = f ->
  0 < f -> 0 < new_pretimeout ->
  f * timeout (xilinx_wdt_wdd (st_xdev st)) < 2 ^ 32 ->
  let r := xilinx_wwdt_set_pretimeout new_pretimeout st in
  res_val r = 0 /\
  pretimeout (xilinx_wdt_wdd (st_xdev (res_state r))) = new_pretimeout /\
  writes_to XWT_WWDT_FWR_OFFSET (res_trace r) =
    [f * (timeout (xilinx_wdt_wdd (st_xdev st)) - new_pretimeout)] /\
  writes_to XWT_WWDT_SWR_OFFSET (res_trace r) = [f * new_pretimeout] /\
  clk_enables (res_trace r) = 0%nat.
Proof.
  intros Hc Ha Hb Hrate Hf Hp Hfit r. subst r.
  rewrite (set_pretimeout_accepted_result _ _ Hc (below_accepts _ _ _ Hb)).
  cbv zeta. rewrite Ha. rewrite start_cases. cbv zeta.
  cbn [st_hw st_xdev xilinx_wdt_wdd with_wdd with_pretimeout with_timeout
       timeout pretimeout status]. rewrite Hrate.
  destruct (Z.eqb_spec f 0) as [E | _]; [lia |].
  change (watchdog_active _) with (watchdog_active (xilinx_wdt_wdd (st_xdev st))).
  rewrite Ha. rewrite start_program_trace. cbv zeta. simpl_drv.
  set (T := timeout (xilinx_wdt_wdd (st_xdev st))) in *.
  rewrite (wrap64_small (f * new_pretimeout)) by nia.
  rewrite (wrap64_small (f * T)) by nia.
  assert (Ht : truthy (f * new_pretimeout) = true)
    by (apply negb_true_iff, Z.eqb_neq; nia).
  rewrite Ht.
  rewrite (wrap64_small (f * T - f * new_pretimeout)) by nia.
  rewrite (wrap32_small (f * T - f * new_pretimeout)) by nia.
  rewrite (wrap32_small (f * new_pretimeout)) by nia.
  cbn. repeat split. f_equal. lia.
Qed.

(** X13: the setters do not report a re-arm that fails. On an active
    device whose clock rate reads 0, an accepted set_timeout or
    set_pretimeout still returns 0 and stores the new value, while the
    start it tries returns [-EINVAL] and writes no register. *)
Theorem xilinx_wwdt_setters_swallow_start_failure (new_value : Z) (st : state hw) :
  window_state_of (esr_at st) = Closed ->
  watchdog_active (xilinx_wdt_wdd (st_xdev st)) = true ->
  hw_clk_get_rate (st_hw (after_gate st)) = 0 ->
  let wdd := xilinx_wdt_wdd (st_xdev st) in
  (min_timeout wdd <= new_value <= max_timeout wdd ->
   xilinx_wwdt_set_timeout new_value st =
   mk_result 0
     [EvRead XWT_WWDT_ESR_OFFSET (esr_at st); EvLog LogDbg msg_start_failed]
     (mk_state (with_wdd (st_xdev st) (with_pretimeout (with_timeout wdd new_value) 0))
        (st_hw (after_gate st)))) /\
  (min_timeout wdd <= new_value < timeout wdd ->
   xilinx_wwdt_set_pretimeout new_value st =
   mk_result 0
     [EvRead XWT_WWDT_ESR_OFFSET (esr_at st); EvLog LogDbg msg_start_failed]
     (mk_state (with_wdd (st_xdev st) (with_pretimeout wdd new_value))
        (st_hw (after_gate st)))).
Proof.
  intros Hc Ha Hrate wdd. subst wdd. split; intros Hb.
  - rewrite (set_timeout_accepted_result _ _ Hc (range_accepts _ _ _ Hb)).
    cbv zeta. rewrite Ha. rewrite start_cases. cbv zeta.
    cbn [st_hw st_xdev]. rewrite Hrate. reflexivity.
  - rewrite (set_pretimeout_accepted_result _ _ Hc (below_accepts _ _ _ Hb)).
    cbv zeta. rewrite Ha. rewrite start_cases. cbv zeta.
    cbn [st_hw st_xdev]. rewrite Hrate. reflexivity.
Qed.
End SetterRearm.

(** ** The self-test on any hardware *)

Lemma all_reads_counts (tr : list event) :
  Forall (fun e => is_read e = true) tr ->
  reads tr = List.length tr /\ writes tr = [] /\
  clk_enables tr = 0%nat /\ clk_disables tr = 0%nat /\
  forall held, lock_scan held tr = Some held.
Proof.
  induction 1 as [| e tr He _ IH].
  - repeat split.
  - destruct IH as (Hr & Hw & Hce & Hcd & Hl).
    destruct e; try discriminate He.
    unfold reads, writes, clk_enables, clk_disables in *. cbn.
    rewrite Hr, Hw. repeat split; try assumption.
Qed.

Section SelfTestAnyHardware.
Context {hw : Type} {PF : Platform hw}.

(** Whatever the timebase answers, the loop only reads, at most as many
    times as its budget, and keeps the device structure. *)
Lemma selftest_loop_reads (n : nat) :
  forall (i v1 v2 : Z) (st : state hw),
    selftest_budget i = n ->
    Forall (fun e => is_read e = true) (res_trace (selftest_loop i v1 v2 st)) /\
    (List.length (res_trace (selftest_loop i v1 v2 st)) <= n)%nat /\
    st_xdev (res_state (selftest_loop i v1 v2 st)) = st_xdev st.
Proof.
  induction n as [| n IH]; intros i v1 v2 st Hb.
  - apply budget_zero in Hb. simp selftest_loop.
    destruct (Z_le_gt_dec i XWT_MAX_SELFTEST_LOOP_COUNT) as [Hle | Hgt]; [lia |].
    cbn. split; [constructor | split; [lia | reflexivity]].
  - apply budget_succ in Hb. destruct Hb as [Hle Hb]. simp selftest_loop.
    destruct (Z_le_gt_dec i XWT_MAX_SELFTEST_LOOP_COUNT) as [Hle' | Hgt]; [| lia].
    cbn. destruct (v2 =? v1); cbn.
    + run_drv.
      match goal with
      | |- context [selftest_loop ?a ?b ?c ?s] =>
          destruct (IH a b c s Hb) as (Hall & Hlen & Hx);
          destruct (selftest_loop a b c s) as [v tr s']
      end.
      simpl_drv. cbn [List.length]. repeat split.
      * constructor; [reflexivity | exact Hall].
      * lia.
      * exact Hx.
    + split; [constructor | split; [lia | reflexivity]].
Qed.

(** The loop on a timebase whose next [n] reads all answer [v]. *)
Lemma selftest_loop_stuck_for (n : nat) :
  forall (i v : Z) (xdev : xwdt_device) (h : hw),
    selftest_budget i = n ->
    (forall k, (k < n)%nat -> tbr_read k h = v) ->
    res_val (selftest_loop i v v (mk_state xdev h)) = v.
Proof.
  induction n as [| n IH]; intros i v xdev h Hb Hstuck.
  - apply budget_zero in Hb. simp selftest_loop.
    destruct (Z_le_gt_dec i XWT_MAX_SELFTEST_LOOP_COUNT) as [Hle | Hgt];
      [lia | reflexivity].
  - apply budget_succ in Hb. destruct Hb as [Hle Hb]. simp selftest_loop.
    destruct (Z_le_gt_dec i XWT_MAX_SELFTEST_LOOP_COUNT) as [Hle' | Hgt]; [| lia].
    cbn. rewrite Z.eqb_refl. cbn. run_drv.
    assert (H0 : fst (hw_ioread32 XWT_TBR_OFFSET h) = v)
      by (apply (Hstuck 0%nat); lia).
    rewrite H0. fold (tbr_next h).
    assert (IH' := IH (i + 1) v xdev (tbr_next h) Hb).
    destruct (selftest_loop (i + 1) v v (mk_state xdev (tbr_next h))) as [v' tr s'].
    simpl_drv. apply IH'.
    intros k Hk. rewrite tbr_read_next. apply Hstuck. lia.
Qed.

(** X14: whatever the timebase register answers, the self-test ends
    with 0 (pass) or [XWT_TIMER_FAILED], after at least 2 and at most
    65539 reads; it writes no register, does not call the clock
    framework and leaves the device structure as it was. *)
Theorem xwdt_selftest_bounded (st : state hw) :
  let r := xwdt_selftest st in
  (res_val r = 0 \/ res_val r = XWT_TIMER_FAILED) /\
  2 <= Z.of_nat (reads (res_trace r)) <= 65539 /\
  writes (res_trace r) = [] /\
  clk_enables (res_trace r) = 0%nat /\
  clk_disables (res_trace r) = 0%nat /\
  st_xdev (res_state r) = st_xdev st.
Proof.
  intros r. subst r. unfold xwdt_selftest. run_drv.
  match goal with
  | |- context [selftest_loop ?a ?b ?c ?s] =>
      destruct (selftest_loop_reads (selftest_budget 0) a b c s eq_refl)
        as (Hall & Hlen & Hx);
      destruct (selftest_loop a b c s) as [v tr s']
  end.
  simpl_drv.
  destruct (all_reads_counts tr Hall) as (Hr & Hw & Hce & Hcd & _).
  assert (Hbudget : Z.of_nat (selftest_budget 0) = 65537) by reflexivity.
  match goal with
  | |- context [negb (?a =? ?b)] => destruct (a =? b)
  end; simpl_drv.
  all: unfold reads, writes, clk_enables, clk_disables in *.
  all: cbn [filter is_read is_write is_clk_enable is_clk_disable List.length app].
  all: rewrite !filter_app, !length_app; cbn [filter is_read is_write
         is_clk_enable is_clk_disable List.length app].
  all: rewrite ?Hr, ?Hw, ?Hce, ?Hcd, ?app_nil_r.
  all: split; [auto |]; split; [lia |]; repeat split; exact Hx.
Qed.
End SelfTestAnyHardware.

Section SelfTestVerdict.
Context {hw : Type} {PF : Platform hw}.

(** X15: the verdict of the self-test. It reports failure exactly when
    the first 65539 reads of the timebase register (the two initial ones
    and the 65537 of the loop) all answer the same value; a single
    different answer among them makes it report pass. *)
Theorem xwdt_selftest_fails_iff (st : state hw) :
  res_val (xwdt_selftest st) = XWT_TIMER_FAILED <->
  (forall k, Z.of_nat k <= XWT_MAX_SELFTEST_LOOP_COUNT + 2 ->
             tbr_read k (st_hw st) = tbr_read 0 (st_hw st)).
Proof.
  split.
  - intros Hfail k Hk.
    destruct (Z.eq_dec (tbr_read k (st_hw st)) (tbr_read 0 (st_hw st))) as [E | Hne];
      [exact E |].
    assert (Hk1 : (1 <= k)%nat) by (destruct k; [contradiction | lia]).
    rewrite (xwdt_selftest_pass st k Hk1 Hk Hne) in Hfail. discriminate Hfail.
  - intros Hstuck. destruct st as [xdev h]. cbn [st_hw] in Hstuck.
    set (v := tbr_read 0 h) in *.
    assert (H0 : fst (hw_ioread32 XWT_TBR_OFFSET h) = v) by reflexivity.
    assert (H1 : fst (hw_ioread32 XWT_TBR_OFFSET (tbr_next h)) = v).
    { apply (Hstuck 1%nat). unfold XWT_MAX_SELFTEST_LOOP_COUNT. lia. }
    unfold xwdt_selftest. run_drv. fold_tbr_next. rewrite H0, H1.
    assert (Hloop := selftest_loop_stuck_for (selftest_budget 0) 0 v xdev
                       (tbr_next (tbr_next h)) eq_refl).
    destruct (selftest_loop 0 v v (mk_state xdev (tbr_next (tbr_next h))))
      as [v2 tr s2].
    simpl_drv. rewrite Hloop.
    + rewrite Z.eqb_refl. reflexivity.
    + intros k Hk. rewrite !tbr_read_next. apply Hstuck.
      unfold selftest_budget, XWT_MAX_SELFTEST_LOOP_COUNT in *. lia.
Qed.
End SelfTestVerdict.

(** ** The lock *)

Lemma lock_scan_app (held : bool) (tr1 tr2 : list event) :
  lock_scan held (tr1 ++ tr2) =
  match lock_scan held tr1 with
  | Some held' => lock_scan held' tr2
  | None => None
  end.
Proof.
  revert held. induction tr1 as [| e tr1 IH]; intros held; [reflexivity |].
  destruct e, held; cbn; try reflexivity; apply IH.
Qed.

Section LockDiscipline.
Context {hw : Type} {PF : Platform hw}.

Lemma start_lock_disciplined (st : state hw) :
  lock_disciplined (res_trace (xilinx_wwdt_start st)).
Proof.
  unfold lock_disciplined. rewrite start_cases. cbv zeta.
  destruct (hw_clk_get_rate (st_hw st) =? 0); [reflexivity |].
  destruct st as [xdev h]. cbn [st_xdev st_hw].
  destruct (watchdog_active (xilinx_wdt_wdd xdev)).
  - rewrite start_program_trace. cbv zeta. simpl_drv.
    destruct (truthy _); reflexivity.
  - destruct (fst (hw_clk_enable h) =? 0); [| reflexivity].
    rewrite start_program_trace. cbv zeta. simpl_drv.
    destruct (truthy _); reflexivity.
Qed.

Lemma stop_lock_disciplined (st : state hw) :
  lock_disciplined (res_trace (xilinx_wwdt_stop st)).
Proof.
  unfold lock_disciplined. destruct (window_state_of (esr_at st)) eqn:Hw.
  - rewrite (stop_closed st Hw). cbv zeta. simpl_drv.
    destruct (watchdog_active _); reflexivity.
  - rewrite (stop_open st Hw). reflexivity.
Qed.

Lemma setter_trace_disciplined (e : event) (tr : list event) (b : bool) :
  is_read e = true -> lock_disciplined tr ->
  lock_disciplined (e :: tr ++ (if b then [EvLog LogDbg msg_start_failed] else [])).
Proof.
  unfold lock_disciplined. intros He Htr.
  destruct e; try discriminate He. cbn [lock_scan].
  rewrite lock_scan_app, Htr. destruct b; reflexivity.
Qed.

(** X16: the lock discipline of the driver. In every operation of both
    variants, in the self-test and in the two power-management hooks,
    the spinlock is taken only while free and released before the
    operation returns, every register write happens while it is held,
    and the clock framework is called only while it is free. *)
Theorem operations_lock_disciplined (new_value : Z) (st : state hw) :
  lock_disciplined (res_trace (xilinx_wdt_start st)) /\
  lock_disciplined (res_trace (xilinx_wdt_stop st)) /\
  lock_disciplined (res_trace (xilinx_wdt_keepalive st)) /\
  lock_disciplined (res_trace (xilinx_wwdt_start st)) /\
  lock_disciplined (res_trace (xilinx_wwdt_stop st)) /\
  lock_disciplined (res_trace (xilinx_wwdt_keepalive st)) /\
  lock_disciplined (res_trace (xilinx_wwdt_set_timeout new_value st)) /\
  lock_disciplined (res_trace (xilinx_wwdt_set_pretimeout new_value st)) /\
  lock_disciplined (res_trace (xwdt_selftest st)) /\
  lock_disciplined (res_trace (xwdt_suspend st)) /\
  lock_disciplined (res_trace (xwdt_resume st)).
Proof.
  assert (Hplain_start : forall s : state hw,
             lock_disciplined (res_trace (xilinx_wdt_start s))).
  { intros s. unfold lock_disciplined, xilinx_wdt_start. run_drv.
    destruct (truthy _); reflexivity. }
  assert (Hplain_stop : forall s : state hw,
             lock_disciplined (res_trace (xilinx_wdt_stop s))).
  { intros s. reflexivity. }
  split; [apply Hplain_start |]. split; [apply Hplain_stop |].
  split; [reflexivity |].
  split; [apply start_lock_disciplined |].
  split; [apply stop_lock_disciplined |].
  split.
  { unfold lock_disciplined. destruct (window_state_of (esr_at st)) eqn:Hw.
    - apply window_closed_gate in Hw.
      unfold xilinx_wwdt_keepalive. run_drv. fold (esr_at st). rewrite Hw.
      reflexivity.
    - rewrite (keepalive_open st Hw). reflexivity. }
  split.
  { destruct (window_state_of (esr_at st)) eqn:Hw.
    - destruct ((new_value <? min_timeout (xilinx_wdt_wdd (st_xdev st)))
                || (new_value >? max_timeout (xilinx_wdt_wdd (st_xdev st)))) eqn:Hr.
      + rewrite (set_timeout_closed_rejected _ _ Hw Hr). reflexivity.
      + rewrite (set_timeout_accepted_result _ _ Hw Hr). cbv zeta.
        destruct (watchdog_active _); [| reflexivity].
        cbn [res_trace]. apply setter_trace_disciplined;
          [reflexivity | apply start_lock_disciplined].
    - rewrite (set_timeout_open _ _ Hw). reflexivity. }
  split.
  { destruct (window_state_of (esr_at st)) eqn:Hw.
    - destruct ((new_value <? min_timeout (xilinx_wdt_wdd (st_xdev st)))
                || (new_value >=? timeout (xilinx_wdt_wdd (st_xdev st)))) eqn:Hr.
      + rewrite (set_pretimeout_closed_rejected _ _ Hw Hr). reflexivity.
      + rewrite (set_pretimeout_accepted_result _ _ Hw Hr). cbv zeta.
        destruct (watchdog_active _); [| reflexivity].
        cbn [res_trace]. apply setter_trace_disciplined;
          [reflexivity | apply start_lock_disciplined].
    - rewrite (set_pretimeout_open _ _ Hw). reflexivity. }
  split.
  { unfold lock_disciplined, xwdt_selftest. run_drv.
    match goal with
    | |- context [selftest_loop ?a ?b ?c ?s] =>
        destruct (selftest_loop_reads (selftest_budget 0) a b c s eq_refl)
          as (Hall & _ & _);
        destruct (selftest_loop a b c s) as [v tr s']
    end.
    simpl_drv. destruct (all_reads_counts tr Hall) as (_ & _ & _ & _ & Hl).
    match goal with
    | |- context [negb (?a =? ?b)] => destruct (a =? b)
    end; simpl_drv; cbn [lock_scan]; rewrite !lock_scan_app, Hl; reflexivity. }
  split.
  { unfold lock_disciplined, xwdt_suspend. run_drv.
    destruct (watchdog_active _); simpl_drv; [| reflexivity].
    destruct (ops (xilinx_wdt_wdd (st_xdev st))); cbn [ops_stop].
    - pose proof (Hplain_stop st) as Hs.
      destruct (xilinx_wdt_stop st) as [v tr s']. simpl_drv.
      rewrite !app_nil_r. exact Hs.
    - pose proof (stop_lock_disciplined st) as Hs.
      destruct (xilinx_wwdt_stop st) as [v tr s']. simpl_drv.
      rewrite !app_nil_r. exact Hs. }
  unfold xwdt_resume. run_drv.
  destruct (watchdog_active _); [| reflexivity].
  destruct (ops (xilinx_wdt_wdd (st_xdev st))); cbn [ops_start].
  - pose proof (Hplain_start st) as Hs.
    destruct (xilinx_wdt_start st) as [v tr s']. exact Hs.
  - pose proof (start_lock_disciplined st) as Hs.
    destruct (xilinx_wwdt_start st) as [v tr s']. exact Hs.
Qed.
End LockDiscipline.

Example write_outside_lock_rejected :
  lock_scan false [EvSpinLock; EvSpinUnlock; EvWrite 1 0] = None /\
  lock_scan false [EvSpinLock; EvClkDisable; EvSpinUnlock] = None /\
  lock_scan false [EvSpinLock; EvWrite 1 0] = Some true.
Proof. repeat split. Qed.

(** ** Attach time, plain variant and defaults *)

(** X17: the timeout block of the probe for the plain variant. With a
    clock frequency and an interval exponent that are both not 0
    (exponent at most 30) the timeout becomes twice 2^interval / pfreq
    seconds, rounded down before doubling; when either is 0 the block
    leaves the device structure as it was, dividing nothing. The window
    fields are never touched on this branch. *)
Theorem xwdt_probe_plain_timeout (pfreq pre_timeout : Z) (xdev : xwdt_device) :
  (0 < pfreq -> 0 < wdt_interval xdev <= 30 ->
   xwdt_probe_timeouts XWDT_WDT pfreq pre_timeout xdev =
   Done (with_wdd xdev
           (with_timeout (xilinx_wdt_wdd xdev)
              (2 * (2 ^ wdt_interval xdev / pfreq))))) /\
  (pfreq = 0 \/ wdt_interval xdev = 0 ->
   xwdt_probe_timeouts XWDT_WDT pfreq pre_timeout xdev = Done xdev).
Proof.
  split.
  - intros Hf Hi. unfold xwdt_probe_timeouts, truthy.
    destruct (Z.eqb_spec pfreq 0); [lia |].
    destruct (Z.eqb_spec (wdt_interval xdev) 0); [lia |].
    destruct (Z.leb_spec 32 (wdt_interval xdev)); [lia |].
    cbn [negb andb]. rewrite Z.shiftl_1_l.
    assert (Hpow : 1 <= 2 ^ wdt_interval xdev <= 2 ^ 30).
    { split; [apply (Z.pow_le_mono_r 2 0); lia | apply Z.pow_le_mono_r; lia]. }
    assert (Hq : 0 <= 2 ^ wdt_interval xdev / pfreq <= 2 ^ 30).
    { split; [apply Z.div_pos; lia |].
      apply Z.le_trans with (2 ^ wdt_interval xdev); [| lia].
      apply Z.div_le_upper_bound; nia. }
    rewrite (wrap32_small (2 ^ wdt_interval xdev)) by lia.
    rewrite wrap32_small by lia. reflexivity.
  - intros H. unfold xwdt_probe_timeouts, truthy.
    destruct H as [-> | ->]; cbn [Z.eqb negb andb]; [reflexivity |].
    rewrite andb_false_r. reflexivity.
Qed.

(** X18: the defaults of the probe for the window variant against the
    range it computes. The minimum of 1 s never exceeds the default
    timeout of 10 s, and the default timeout is within the maximum
    floor((2^32-1)/pfreq) exactly when the clock is at most
    429496729 Hz; above that the block leaves a timeout beyond its own
    maximum. *)
Theorem xwdt_probe_window_default_in_range (pfreq pre_timeout : Z) (xdev : xwdt_device) :
  0 < pfreq ->
  exists xdev',
    xwdt_probe_timeouts XWDT_WWDT pfreq pre_timeout xdev = Done xdev' /\
    wdt_interval xdev' = wdt_interval xdev /\
    irq xdev' = irq xdev /\
    status (xilinx_wdt_wdd xdev') = status (xilinx_wdt_wdd xdev) /\
    min_timeout (xilinx_wdt_wdd xdev') <= timeout (xilinx_wdt_wdd xdev') /\
    (timeout (xilinx_wdt_wdd xdev') <= max_timeout (xilinx_wdt_wdd xdev') <->
     pfreq <= 429496729).
Proof.
  intros Hf. unfold xwdt_probe_timeouts.
  destruct (Z.eqb_spec pfreq 0); [lia |].
  eexists. split; [reflexivity |]. cbn.
  repeat split; try reflexivity; try (unfold XWT_WWDT_MIN_TIMEOUT, XWT_WWDT_DEFAULT_TIMEOUT; lia).
  - intros H. unfold XWT_WWDT_DEFAULT_TIMEOUT, U32_MAX in H.
    assert (Hm : pfreq * (4294967295 / pfreq) <= 4294967295)
      by (apply Z.mul_div_le; lia).
    nia.
  - intros H. unfold XWT_WWDT_DEFAULT_TIMEOUT, U32_MAX.
    apply Z.div_le_lower_bound; lia.
Qed.

(** ** A system sleep: suspend, then resume *)

Lemma clk_enables_app (tr1 tr2 : list event) :
  clk_enables (tr1 ++ tr2) = (clk_enables tr1 + clk_enables tr2)%nat.
Proof. unfold clk_enables. rewrite filter_app, length_app. reflexivity. Qed.

Lemma clk_disables_app (tr1 tr2 : list event) :
  clk_disables (tr1 ++ tr2) = (clk_disables tr1 + clk_disables tr2)%nat.
Proof. unfold clk_disables. rewrite filter_app, length_app. reflexivity. Qed.

Section SleepCycle.
Context {hw : Type} {PF : Platform hw}.

Lemma suspend_resume_steps (st : state hw) :
  xwdt_suspend_resume st =
  mk_result (res_val (xwdt_resume (res_state (xwdt_suspend st))))
    (res_trace (xwdt_suspend st)
     ++ res_trace (xwdt_resume (res_state (xwdt_suspend st))))
    (res_state (xwdt_resume (res_state (xwdt_suspend st)))).
Proof.
  unfold xwdt_suspend_resume, bind.
  destruct (xwdt_suspend st) as [v tr s]. simpl_drv.
  destruct (xwdt_resume s). reflexivity.
Qed.

Lemma resume_active (st : state hw) :
  watchdog_active (xilinx_wdt_wdd (st_xdev st)) = true ->
  xwdt_resume st = ops_start (ops (xilinx_wdt_wdd (st_xdev st))) st.
Proof.
  intros Ha. unfold xwdt_resume. run_drv. rewrite Ha.
  destruct (ops_start _ st). reflexivity.
Qed.

Lemma suspend_active_plain (st : state hw) :
  watchdog_active (xilinx_wdt_wdd (st_xdev st)) = true ->
  ops (xilinx_wdt_wdd (st_xdev st)) = xilinx_wdt_ops ->
  res_trace (xwdt_suspend st) = res_trace (xilinx_wdt_stop st) /\
  res_state (xwdt_suspend st) = res_state (xilinx_wdt_stop st).
Proof.
  intros Ha Ho. unfold xwdt_suspend. run_drv. rewrite Ha, Ho.
  cbn [ops_stop]. destruct (xilinx_wdt_stop st) as [v tr s]. simpl_drv.
  rewrite !app_nil_r. split; reflexivity.
Qed.

Lemma stop_keeps_xdev (st : state hw) :
  st_xdev (res_state (xilinx_wwdt_stop st)) = st_xdev st.
Proof.
  destruct (window_state_of (esr_at st)) eqn:Hw.
  - rewrite (stop_closed st Hw). reflexivity.
  - rewrite (stop_open st Hw). reflexivity.
Qed.

Lemma start_clock_calls (st : state hw) :
  clk_disables (res_trace (xilinx_wwdt_start st)) = 0%nat /\
  (watchdog_active (xilinx_wdt_wdd (st_xdev st)) = true ->
   clk_enables (res_trace (xilinx_wwdt_start st)) = 0%nat /\
   res_val (xilinx_wwdt_start st) =
     (if hw_clk_get_rate (st_hw st) =? 0 then - EINVAL else 0)).
Proof.
  rewrite start_cases. cbv zeta.
  destruct (hw_clk_get_rate (st_hw st) =? 0); [repeat split |].
  destruct st as [xdev h]. cbn [st_xdev st_hw].
  destruct (watchdog_active (xilinx_wdt_wdd xdev)).
  - rewrite start_program_trace. cbv zeta. simpl_drv.
    destruct (truthy _); repeat split.
  - split; [| intros Hf; discriminate Hf].
    destruct (fst (hw_clk_enable h) =? 0); [| reflexivity].
    rewrite start_program_trace. cbv zeta. simpl_drv.
    destruct (truthy _); reflexivity.
Qed.

(** X19: a sleep cycle of an active window device. The stop of the
    suspend disables the clock once when the window state reads Closed
    (and is rejected when it reads Open); the start of the resume finds
    the device still marked active and does not enable the clock: over
    the whole cycle [clk_enable] is never called. The resume returns 0
    when the clock rate it reads is not 0, [-EINVAL] otherwise, and the
    device structure is as before. *)
Theorem wwdt_sleep_cycle_clock (st : state hw) :
  watchdog_active (xilinx_wdt_wdd (st_xdev st)) = true ->
  ops (xilinx_wdt_wdd (st_xdev st)) = xilinx_wwdt_ops ->
  let r := xwdt_suspend_resume st in
  clk_enables (res_trace r) = 0%nat /\
  clk_disables (res_trace r) =
    (match window_state_of (esr_at st) with Closed => 1 | Open => 0 end)%nat /\
  res_val r =
    (if hw_clk_get_rate (st_hw (res_state (xwdt_suspend st))) =? 0
     then - EINVAL else 0) /\
  st_xdev (res_state r) = st_xdev st.
Proof.
  intros Ha Ho r. subst r. rewrite suspend_resume_steps. simpl_drv.
  destruct (suspend_active_window st Ha Ho) as [Htr Hst].
  assert (Hx : st_xdev (res_state (xwdt_suspend st)) = st_xdev st)
    by (rewrite Hst; apply stop_keeps_xdev).
  assert (Ha' : watchdog_active (xilinx_wdt_wdd (st_xdev (res_state (xwdt_suspend st)))) = true)
    by (rewrite Hx; exact Ha).
  rewrite (resume_active _ Ha').
  replace (ops (xilinx_wdt_wdd (st_xdev (res_state (xwdt_suspend st)))))
    with xilinx_wwdt_ops by (rewrite Hx; symmetry; exact Ho).
  cbn [ops_start].
  destruct (start_clock_calls (res_state (xwdt_suspend st))) as [Hd He].
  destruct (He Ha') as [He0 Hv].
  rewrite clk_enables_app, clk_disables_app, He0, Hd, Hv, start_keeps_xdev, Hx, Htr.
  destruct (window_state_of (esr_at st)) eqn:Hw.
  - rewrite (stop_closed st Hw). cbv zeta. rewrite Ha. repeat split.
  - rewrite (stop_open st Hw). repeat split.
Qed.

(** X20: a sleep cycle of an active plain device calls [clk_disable]
    once, in the stop of the suspend, and [clk_enable] once, in the
    start of the resume, whose answer is what the cycle returns. *)
Theorem wdt_sleep_cycle_clock (st : state hw) :
  watchdog_active (xilinx_wdt_wdd (st_xdev st)) = true ->
  ops (xilinx_wdt_wdd (st_xdev st)) = xilinx_wdt_ops ->
  let r := xwdt_suspend_resume st in
  clk_disables (res_trace r) = 1%nat /\
  clk_enables (res_trace r) = 1%nat /\
  res_val r = fst (hw_clk_enable (st_hw (res_state (xwdt_suspend st)))) /\
  st_xdev (res_state r) = st_xdev st.
Proof.
  intros Ha Ho r. subst r. rewrite suspend_resume_steps. simpl_drv.
  destruct (suspend_active_plain st Ha Ho) as [Htr Hst].
  assert (Hx : st_xdev (res_state (xwdt_suspend st)) = st_xdev st)
    by (rewrite Hst; reflexivity).
  assert (Ha' : watchdog_active (xilinx_wdt_wdd (st_xdev (res_state (xwdt_suspend st)))) = true)
    by (rewrite Hx; exact Ha).
  rewrite (resume_active _ Ha').
  replace (ops (xilinx_wdt_wdd (st_xdev (res_state (xwdt_suspend st)))))
    with xilinx_wdt_ops by (rewrite Hx; symmetry; exact Ho).
  cbn [ops_start].
  rewrite clk_enables_app, clk_disables_app, Htr.
  set (s1 := res_state (xwdt_suspend st)) in *.
  assert (Hstart :
    clk_enables (res_trace (xilinx_wdt_start s1)) = 1%nat /\
    clk_disables (res_trace (xilinx_wdt_start s1)) = 0%nat /\
    res_val (xilinx_wdt_start s1) = fst (hw_clk_enable (st_hw s1)) /\
    st_xdev (res_state (xilinx_wdt_start s1)) = st_xdev s1).
  { unfold xilinx_wdt_start. run_drv.
    destruct (truthy (fst (hw_clk_enable (st_hw s1)))) eqn:Hr; simpl_drv;
      repeat split.
    apply negb_false_iff, Z.eqb_eq in Hr. symmetry. exact Hr. }
  destruct Hstart as (He & Hd & Hv & Hk).
  rewrite He, Hd, Hv, Hk, Hx. repeat split.
Qed.
End SleepCycle.

(** ** The added theorems at work on the simulated platform *)

(** X5 and X6 at 100 MHz, timeout 10 s, pretimeout 2 s: the six writes,
    and Function-Control 0xBC0 from the 200000000 = 0x0BEBC200 read back. *)
Lemma xilinx_wwdt_start_sequence_witness :
  res_val (xilinx_wwdt_start (sim_window 0 10 2 0)) = 0 /\
  (let r := xilinx_wwdt_start (sim_window 0 10 2 0) in
   exists fw sw fcr esr,
     writes (res_trace r) =
       [EvWrite 1 XWT_WWDT_MWR_OFFSET;
        EvWrite 0xFFFFFFFE XWT_WWDT_ESR_OFFSET;
        EvWrite fw XWT_WWDT_FWR_OFFSET;
        EvWrite sw XWT_WWDT_SWR_OFFSET;
        EvWrite fcr XWT_WWDT_FCR_OFFSET;
        EvWrite (Z.lor esr 1) XWT_WWDT_ESR_OFFSET] /\
     In (EvRead XWT_WWDT_ESR_OFFSET esr) (res_trace r) /\
     Z.testbit (Z.lor esr 1) 0 = true /\
     (forall n, 0 < n -> Z.testbit (Z.lor esr 1) n = Z.testbit esr n) /\
     (fw + sw) mod 2 ^ 32 =
       (hw_clk_get_rate (st_hw (sim_window 0 10 2 0))
        * timeout (xilinx_wdt_wdd (st_xdev (sim_window 0 10 2 0)))) mod 2 ^ 32).
Proof.
  split; [reflexivity |].
  apply (xilinx_wwdt_start_sequence (sim_window 0 10 2 0)). reflexivity.
Defined.

Lemma xilinx_wwdt_start_function_control_witness :
  (res_val (xilinx_wwdt_start (sim_window 0 10 2 0)) = 0 /\
   truthy (wrap64 (hw_clk_get_rate (st_hw (sim_window 0 10 2 0))
                   * pretimeout (xilinx_wdt_wdd (st_xdev (sim_window 0 10 2 0))))) = true) /\
  (let r := xilinx_wwdt_start (sim_window 0 10 2 0) in
   exists rb fcr,
     In (EvRead XWT_WWDT_SWR_OFFSET rb) (res_trace r) /\
     writes_to XWT_WWDT_FCR_OFFSET (res_trace r) = [fcr] /\
     Z.testbit fcr 6 = true /\ Z.testbit fcr 7 = true /\
     (forall n, 8 <= n < 16 -> Z.testbit fcr n = Z.testbit rb (n + 16)) /\
     (forall n, 0 <= n < 6 \/ 16 <= n -> Z.testbit fcr n = false)).
Proof.
  split; [split; reflexivity |].
  apply (xilinx_wwdt_start_function_control (sim_window 0 10 2 0)); reflexivity.
Defined.

Example start_function_control_value :
  writes_to XWT_WWDT_FCR_OFFSET
    (res_trace (xilinx_wwdt_start (sim_window 0 10 2 0))) = [0xBC0].
Proof. reflexivity. Qed.

(** X7 on an active device that reads enabled with the phase-switch bit
    set. *)
Lemma xilinx_wwdt_keepalive_closed_witness :
  window_state_of (esr_at (sim_window 0x101 10 0 1)) = Closed /\
  res_val (xilinx_wwdt_keepalive (sim_window 0x101 10 0 1)) = 0.
Proof.
  split; [reflexivity |].
  apply (xilinx_wwdt_keepalive_closed (sim_window 0x101 10 0 1)). reflexivity.
Defined.

(** X8 on a device that is not enabled: 5 s is within 1..42. *)
Lemma xilinx_wwdt_set_timeout_range_witness :
  window_state_of (esr_at (sim_window 0 10 3 0)) = Closed /\
  (res_val (xilinx_wwdt_set_timeout 5 (sim_window 0 10 3 0)) = 0 <->
   min_timeout (xilinx_wdt_wdd (st_xdev (sim_window 0 10 3 0))) <= 5
     <= max_timeout (xilinx_wdt_wdd (st_xdev (sim_window 0 10 3 0)))).
Proof.
  split; [reflexivity |].
  apply (xilinx_wwdt_set_timeout_range 5 (sim_window 0 10 3 0)). reflexivity.
Defined.

(** X10 on a device that is neither enabled nor active. *)
Lemma xilinx_wwdt_setters_inactive_store_only_witness :
  (window_state_of (esr_at (sim_window 0 10 3 0)) = Closed /\
   watchdog_active (xilinx_wdt_wdd (st_xdev (sim_window 0 10 3 0))) = false) /\
  (min_timeout (xilinx_wdt_wdd (st_xdev (sim_window 0 10 3 0))) <= 5
     <= max_timeout (xilinx_wdt_wdd (st_xdev (sim_window 0 10 3 0))) ->
   xilinx_wwdt_set_timeout 5 (sim_window 0 10 3 0) =
   mk_result 0
     [EvRead XWT_WWDT_ESR_OFFSET (esr_at (sim_window 0 10 3 0))]
     (mk_state
        (with_wdd (st_xdev (sim_window 0 10 3 0))
           (with_pretimeout
              (with_timeout (xilinx_wdt_wdd (st_xdev (sim_window 0 10 3 0))) 5) 0))
        (st_hw (after_gate (sim_window 0 10 3 0))))).
Proof.
  split; [split; reflexivity |].
  apply (xilinx_wwdt_setters_inactive_store_only 5 (sim_window 0 10 3 0));
    reflexivity.
Defined.

(** X11 and X12 on an active device at 100 MHz. *)
Lemma xilinx_wwdt_set_timeout_rearms_witness :
  (window_state_of (esr_at (sim_window 0 10 3 1)) = Closed /\
   watchdog_active (xilinx_wdt_wdd (st_xdev (sim_window 0 10 3 1))) = true /\
   min_timeout (xilinx_wdt_wdd (st_xdev (sim_window 0 10 3 1))) <= 5
     <= max_timeout (xilinx_wdt_wdd (st_xdev (sim_window 0 10 3 1))) /\
   hw_clk_get_rate (st_hw (after_gate (sim_window 0 10 3 1))) = 100000000 /\
   0 < 100000000 /\ 0 <= 5 /\ 100000000 * 5 < 2 ^ 32) /\
  writes_to XWT_WWDT_SWR_OFFSET
    (res_trace (xilinx_wwdt_set_timeout 5 (sim_window 0 10 3 1))) =
    [100000000 * 5].
Proof.
  assert (Hb : min_timeout (xilinx_wdt_wdd (st_xdev (sim_window 0 10 3 1))) <= 5
               <= max_timeout (xilinx_wdt_wdd (st_xdev (sim_window 0 10 3 1))))
    by (vm_compute; split; discriminate).
  split.
  - repeat split; try reflexivity; try exact (proj1 Hb); try exact (proj2 Hb); lia.
  - apply (xilinx_wwdt_set_timeout_rearms 5 100000000 (sim_window 0 10 3 1));
      try reflexivity; try exact Hb; lia.
Defined.

Lemma xilinx_wwdt_set_pretimeout_rearms_witness :
  (window_state_of (esr_at (sim_window 0 10 0 1)) = Closed /\
   watchdog_active (xilinx_wdt_wdd (st_xdev (sim_window 0 10 0 1))) = true /\
   min_timeout (xilinx_wdt_wdd (st_xdev (sim_window 0 10 0 1))) <= 2
     < timeout (xilinx_wdt_wdd (st_xdev (sim_window 0 10 0 1))) /\
   hw_clk_get_rate (st_hw (after_gate (sim_window 0 10 0 1))) = 100000000 /\
   0 < 100000000 /\ 0 < 2 /\
   100000000 * timeout (xilinx_wdt_wdd (st_xdev (sim_window 0 10 0 1))) < 2 ^ 32) /\
  writes_to XWT_WWDT_FWR_OFFSET
    (res_trace (xilinx_wwdt_set_pretimeout 2 (sim_window 0 10 0 1))) =
    [100000000 * (timeout (xilinx_wdt_wdd (st_xdev (sim_window 0 10 0 1))) - 2)].
Proof.
  assert (Hb : min_timeout (xilinx_wdt_wdd (st_xdev (sim_window 0 10 0 1))) <= 2
               < timeout (xilinx_wdt_wdd (st_xdev (sim_window 0 10 0 1))))
    by (vm_compute; split; [discriminate | reflexivity]).
  assert (Hfit : 100000000 * timeout (xilinx_wdt_wdd (st_xdev (sim_window 0 10 0 1)))
                 < 2 ^ 32) by reflexivity.
  split.
  - repeat split; try reflexivity; try exact (proj1 Hb); try exact (proj2 Hb); lia.
  - apply (xilinx_wwdt_set_pretimeout_rearms 2 100000000 (sim_window 0 10 0 1));
      try reflexivity; try exact Hb; try exact Hfit; lia.
Defined.

(** X13 on an active device whose clock rate reads 0. *)
Lemma xilinx_wwdt_setters_swallow_start_failure_witness :
  (window_state_of (esr_at (sim_window_clk 0 10 3 1 0 0)) = Closed /\
   watchdog_active (xilinx_wdt_wdd (st_xdev (sim_window_clk 0 10 3 1 0 0))) = true /\
   hw_clk_get_rate (st_hw (after_gate (sim_window_clk 0 10 3 1 0 0))) = 0) /\
  (min_timeout (xilinx_wdt_wdd (st_xdev (sim_window_clk 0 10 3 1 0 0))) <= 5
     <= max_timeout (xilinx_wdt_wdd (st_xdev (sim_window_clk 0 10 3 1 0 0))) ->
   res_val (xilinx_wwdt_set_timeout 5 (sim_window_clk 0 10 3 1 0 0)) = 0).
Proof.
  split; [repeat split |].
  intros Hb.
  destruct (xilinx_wwdt_setters_swallow_start_failure 5 (sim_window_clk 0 10 3 1 0 0))
    as [H _]; [reflexivity | reflexivity | reflexivity |].
  rewrite (H Hb). reflexivity.
Defined.

(** X18 at 100 MHz. *)
Lemma xwdt_probe_window_default_in_range_witness :
  0 < 100000000 /\
  exists xdev',
    xwdt_probe_timeouts XWDT_WWDT 100000000 0 (sim_xdev 0 0 0) = Done xdev' /\
    wdt_interval xdev' = wdt_interval (sim_xdev 0 0 0) /\
    irq xdev' = irq (sim_xdev 0 0 0) /\
    status (xilinx_wdt_wdd xdev') = status (xilinx_wdt_wdd (sim_xdev 0 0 0)) /\
    min_timeout (xilinx_wdt_wdd xdev') <= timeout (xilinx_wdt_wdd xdev') /\
    (timeout (xilinx_wdt_wdd xdev') <= max_timeout (xilinx_wdt_wdd xdev') <->
     100000000 <= 429496729).
Proof.
  split; [reflexivity |].
  apply (xwdt_probe_window_default_in_range 100000000 0 (sim_xdev 0 0 0)).
  reflexivity.
Defined.

(** X19 on an active window device in the Closed phase: one
    [clk_disable], no [clk_enable]. *)
Lemma wwdt_sleep_cycle_clock_witness :
  (watchdog_active (xilinx_wdt_wdd (st_xdev (sim_window 0x101 10 0 1))) = true /\
   ops (xilinx_wdt_wdd (st_xdev (sim_window 0x101 10 0 1))) = xilinx_wwdt_ops) /\
  (let r := xwdt_suspend_resume (sim_window 0x101 10 0 1) in
   clk_enables (res_trace r) = 0%nat /\
   clk_disables (res_trace r) =
     (match window_state_of (esr_at (sim_window 0x101 10 0 1)) with
      | Closed => 1 | Open => 0 end)%nat /\
   res_val r =
     (if hw_clk_get_rate (st_hw (res_state (xwdt_suspend (sim_window 0x101 10 0 1)))) =? 0
      then - EINVAL else 0) /\
   st_xdev (res_state r) = st_xdev (sim_window 0x101 10 0 1)).
Proof.
  split; [split; reflexivity |].
  apply (wwdt_sleep_cycle_clock (sim_window 0x101 10 0 1)); reflexivity.
Defined.

Example wwdt_sleep_cycle_leaves_clock_off :
  sim_clk_enabled (st_hw (sim_window 0x101 10 0 1)) = 1 /\
  sim_clk_enabled (st_hw (res_state (xwdt_suspend_resume (sim_window 0x101 10 0 1)))) = 0 /\
  res_val (xwdt_suspend_resume (sim_window 0x101 10 0 1)) = 0.
Proof. vm_compute. repeat split. Qed.

(** X20 on an active plain device. *)
Lemma wdt_sleep_cycle_clock_witness :
  (watchdog_active (xilinx_wdt_wdd (st_xdev (sim_plain_csr 0xE 1 0))) = true /\
   ops (xilinx_wdt_wdd (st_xdev (sim_plain_csr 0xE 1 0))) = xilinx_wdt_ops) /\
  (let r := xwdt_suspend_resume (sim_plain_csr 0xE 1 0) in
   clk_disables (res_trace r) = 1%nat /\
   clk_enables (res_trace r) = 1%nat /\
   res_val r = fst (hw_clk_enable (st_hw (res_state (xwdt_suspend (sim_plain_csr 0xE 1 0))))) /\
   st_xdev (res_state r) = st_xdev (sim_plain_csr 0xE 1 0)).
Proof.
  split; [split; reflexivity |].
  apply (wdt_sleep_cycle_clock (sim_plain_csr 0xE 1 0)); reflexivity.
Defined.

(** The plain variant on the simulated register file: start sets the
    enable bits, stop clears them, the status bits written by start
    staying. *)
Example plain_start_then_stop :
  sim_regs (st_hw (res_state (xilinx_wdt_start (sim_plain_csr 0 0 0)))) = [0xE; 1; 0] /\
  sim_regs (st_hw (res_state
     (xilinx_wdt_stop (res_state (xilinx_wdt_start (sim_plain_csr 0 0 0)))))) = [0xC; 0; 0] /\
  res_val (xilinx_wdt_start (sim_plain_csr 0 0 (-5))) = -5 /\
  res_trace (xilinx_wdt_start (sim_plain_csr 0 0 (-5))) =
    [EvClkEnable (-5); EvLog LogErr msg_clk_failed].
Proof. vm_compute. repeat split. Qed.
